(** * exon-sf-mcp: command execution adapter and manifest tools

    A shallow embedding of two parts of the server:

    - [executeSfCommand] (sf-command.ts): runs the Salesforce CLI through
      [child_process.exec] and classifies the callback's
      [(error, stdout, stderr)] into a resolved or rejected promise;
    - the manifest tools (manifest.ts): [getManifestSummary],
      [filterManifest] and the helper [filterLargeManifest], which work on
      the object that xml2js hands back for a package.xml.

    JavaScript strings are sequences of UTF-16 code units; numbers that the
    code only counts with (lengths, sums of lengths) are [nat], the limits
    passed by callers are [Z]. *)

From Stdlib Require Import String Ascii List ZArith NArith Bool Lia.
Import ListNotations.

Set Implicit Arguments.
Set Warnings "-register-all".

(* ================================================================== *)
(** * JavaScript values used by both parts *)
(* ================================================================== *)

Module Js.

(** A JavaScript string: its UTF-16 code units. *)
Definition JsString := list N.

(** The code units of an ASCII literal. *)
Fixpoint js (s : string) : JsString :=
  match s with
  | EmptyString => []
  | String c r => N_of_ascii c :: js r
  end.

Fixpoint str_eqb (a b : JsString) : bool :=
  match a, b with
  | [], [] => true
  | x :: a', y :: b' => N.eqb x y && str_eqb a' b'
  | _, _ => false
  end.

(** WhiteSpace and LineTerminator code points, the characters that
    [String.prototype.trim] strips. *)
Definition is_js_space (c : N) : bool :=
  existsb (N.eqb c)
    [9; 10; 11; 12; 13; 32; 160; 5760; 8232; 8233; 8239; 8287; 12288; 65279]%N
  || (N.leb 8192 c && N.leb c 8202).

Fixpoint trimStart (s : JsString) : JsString :=
  match s with
  | [] => []
  | c :: r => if is_js_space c then trimStart r else s
  end.

(** [s.trim()] *)
Definition trim (s : JsString) : JsString :=
  rev (trimStart (rev (trimStart s))).

(** [ToIntegerOrInfinity] clamping of [Array.prototype.slice(0, end)] for an
    integral [end]: a negative [end] counts from the back. *)
Definition slice0 {A : Type} (l : list A) (end_ : Z) : list A :=
  let len := Z.of_nat (length l) in
  let final := if (end_ <? 0)%Z then Z.max (len + end_) 0 else Z.min end_ len in
  firstn (Z.to_nat final) l.

End Js.

(* ================================================================== *)
(** * JSON.parse *)
(* ================================================================== *)

Module Json.
Import Js.

(** The values [JSON.parse] produces.  A number keeps its decimal reading
    [(-1)^neg * mant * 10^exp10]; an object keeps its members in source
    order, duplicates included (the last one wins on lookup, as the last
    definition overwrites the property). *)
Inductive value : Type :=
| VNull
| VBool (b : bool)
| VNum (neg : bool) (mant : N) (exp10 : Z)
| VStr (s : JsString)
| VArr (elems : list value)
| VObj (members : list (JsString * value)).

Inductive token : Type :=
| TLBrace | TRBrace | TLBrack | TRBrack | TColon | TComma
| TString (s : JsString)
| TNumber (neg : bool) (mant : N) (exp10 : Z)
| TTrue | TFalse | TNull.

(** ** Lexer *)

(** JSON white space: tab, line feed, carriage return, space. *)
Definition is_json_ws (c : N) : bool :=
  existsb (N.eqb c) [9; 10; 13; 32]%N.

Definition digit_val (c : N) : option N :=
  if (N.leb 48 c && N.leb c 57)%N then Some (c - 48)%N else None.

Definition hex_val (c : N) : option N :=
  if (N.leb 48 c && N.leb c 57)%N then Some (c - 48)%N
  else if (N.leb 65 c && N.leb c 70)%N then Some (c - 55)%N
  else if (N.leb 97 c && N.leb c 102)%N then Some (c - 87)%N
  else None.

Definition hex4 (a b c d : N) : option N :=
  match hex_val a, hex_val b, hex_val c, hex_val d with
  | Some x, Some y, Some z, Some w => Some (((x * 16 + y) * 16 + z) * 16 + w)%N
  | _, _, _, _ => None
  end.

(** The single-character escapes: quote, backslash, slash, b, f, n, r, t. *)
Definition escape (c : N) : option N :=
  if N.eqb c 34 then Some 34%N
  else if N.eqb c 92 then Some 92%N
  else if N.eqb c 47 then Some 47%N
  else if N.eqb c 98 then Some 8%N
  else if N.eqb c 102 then Some 12%N
  else if N.eqb c 110 then Some 10%N
  else if N.eqb c 114 then Some 13%N
  else if N.eqb c 116 then Some 9%N
  else None.

Definition add_char (c : N) (k : nat) (r : option (JsString * nat))
  : option (JsString * nat) :=
  match r with
  | Some (s, n) => Some (c :: s, (k + n)%nat)
  | None => None
  end.

(** The body of a string literal, read after its opening quote: the decoded
    contents and the number of code units read, closing quote included. *)
Fixpoint lex_string (s : list N) : option (JsString * nat) :=
  match s with
  | [] => None
  | c :: r =>
      if N.eqb c 34 then Some ([], 1%nat)
      else if N.eqb c 92 then
        match r with
        | [] => None
        | e :: r1 =>
            if N.eqb e 117 then
              match r1 with
              | h1 :: h2 :: h3 :: h4 :: r2 =>
                  match hex4 h1 h2 h3 h4 with
                  | Some u => add_char u 6 (lex_string r2)
                  | None => None
                  end
              | _ => None
              end
            else
              match escape e with
              | Some x => add_char x 2 (lex_string r1)
              | None => None
              end
        end
      else if N.ltb c 32 then None
      else add_char c 1 (lex_string r)
  end.

(** The longest run of decimal digits at the head of [s]. *)
Fixpoint span_digits (s : list N) : list N * list N :=
  match s with
  | [] => ([], [])
  | c :: r =>
      match digit_val c with
      | Some d => let (ds, rest) := span_digits r in (d :: ds, rest)
      | None => ([], s)
      end
  end.

Definition digits_to_N (ds : list N) : N :=
  fold_left (fun acc d => (acc * 10 + d)%N) ds 0%N.

(** A number literal: an optional minus sign; an integer part that is a
    single 0 or starts with a non-zero digit; an optional fraction (a dot
    and at least one digit); an optional exponent (e or E, an optional sign,
    at least one digit). *)
Definition lex_number (s : list N) : option (token * nat) :=
  let (neg, s1) :=
    match s with
    | c :: r => if N.eqb c 45 then (true, r) else (false, s)
    | [] => (false, s)
    end in
  let (ip, s2) := span_digits s1 in
  let int_ok :=
    match ip with
    | [] => false
    | d :: rest => negb (N.eqb d 0) || (length rest =? 0)%nat
    end in
  if negb int_ok then None else
  let frac :=
    match s2 with
    | c :: r =>
        if N.eqb c 46 then
          let (fp, s3) := span_digits r in
          match fp with
          | [] => None
          | _ => Some (fp, s3, S (length fp))
          end
        else Some ([], s2, 0%nat)
    | [] => Some ([], s2, 0%nat)
    end in
  match frac with
  | None => None
  | Some (fp, s3, nfrac) =>
      let expo :=
        match s3 with
        | c :: r =>
            if N.eqb c 101 || N.eqb c 69 then
              let '(eneg, r1, nsign) :=
                match r with
                | sg :: r' =>
                    if N.eqb sg 45 then (true, r', 1%nat)
                    else if N.eqb sg 43 then (false, r', 1%nat)
                    else (false, r, 0%nat)
                | [] => (false, r, 0%nat)
                end in
              let (ep, _) := span_digits r1 in
              match ep with
              | [] => None
              | _ =>
                  let e := Z.of_N (digits_to_N ep) in
                  Some ((if eneg then - e else e)%Z,
                        (1 + nsign + length ep)%nat)
              end
            else Some (0%Z, 0%nat)
        | [] => Some (0%Z, 0%nat)
        end in
      match expo with
      | None => None
      | Some (e, nexp) =>
          Some (TNumber neg (digits_to_N (ip ++ fp))
                        (e - Z.of_nat (length fp))%Z,
                ((if neg then 1 else 0) + length ip + nfrac + nexp)%nat)
      end
  end.

Fixpoint starts_with (p s : list N) : bool :=
  match p, s with
  | [], _ => true
  | x :: p', y :: s' => N.eqb x y && starts_with p' s'
  | _ :: _, [] => false
  end.

(** The token that starts at the head of [s] (not white space) and the
    number of code units it spans. *)
Definition lex_at (s : list N) : option (token * nat) :=
  match s with
  | [] => None
  | c :: r =>
      if N.eqb c 123 then Some (TLBrace, 1%nat)
      else if N.eqb c 125 then Some (TRBrace, 1%nat)
      else if N.eqb c 91 then Some (TLBrack, 1%nat)
      else if N.eqb c 93 then Some (TRBrack, 1%nat)
      else if N.eqb c 58 then Some (TColon, 1%nat)
      else if N.eqb c 44 then Some (TComma, 1%nat)
      else if N.eqb c 34 then
        match lex_string r with
        | Some (body, n) => Some (TString body, S n)
        | None => None
        end
      else if starts_with (js "true") s then Some (TTrue, 4%nat)
      else if starts_with (js "false") s then Some (TFalse, 5%nat)
      else if starts_with (js "null") s then Some (TNull, 4%nat)
      else lex_number s
  end.

(** Tokens of [s]; [skip] counts the code units of the current token that
    are still to be passed over. *)
Fixpoint tokens_from (skip : nat) (s : list N) : option (list token) :=
  match s with
  | [] => Some []
  | c :: r =>
      match skip with
      | S k => tokens_from k r
      | O =>
          if is_json_ws c then tokens_from 0 r
          else
            match lex_at s with
            | Some (t, n) =>
                match tokens_from (pred n) r with
                | Some ts => Some (t :: ts)
                | None => None
                end
            | None => None
            end
      end
  end.

Definition tokenize (s : JsString) : option (list token) := tokens_from 0 s.

(** ** Parser: a pushdown automaton over the tokens *)

(** An enclosing container that waits for the value being read. *)
Inductive frame : Type :=
| FArr (acc : list value)
| FObj (acc : list (JsString * value)) (key : JsString).

Inductive pstate : Type :=
| SValue (stk : list frame)
| SArrFirst (stk : list frame)
| SArrNext (stk : list frame) (acc : list value)
| SObjFirst (stk : list frame)
| SObjNext (stk : list frame) (acc : list (JsString * value))
| SKey (stk : list frame) (acc : list (JsString * value))
| SColon (stk : list frame) (acc : list (JsString * value)) (key : JsString)
| SDone (v : value).

(** A value is complete: hand it to the enclosing container. *)
Definition deliver (stk : list frame) (v : value) : pstate :=
  match stk with
  | [] => SDone v
  | FArr acc :: stk' => SArrNext stk' (v :: acc)
  | FObj acc k :: stk' => SObjNext stk' ((k, v) :: acc)
  end.

Definition step_value (stk : list frame) (t : token) : option pstate :=
  match t with
  | TLBrace => Some (SObjFirst stk)
  | TLBrack => Some (SArrFirst stk)
  | TString s => Some (deliver stk (VStr s))
  | TNumber n m e => Some (deliver stk (VNum n m e))
  | TTrue => Some (deliver stk (VBool true))
  | TFalse => Some (deliver stk (VBool false))
  | TNull => Some (deliver stk VNull)
  | TRBrace | TRBrack | TColon | TComma => None
  end.

Definition step (st : pstate) (t : token) : option pstate :=
  match st with
  | SValue stk => step_value stk t
  | SArrFirst stk =>
      match t with
      | TRBrack => Some (deliver stk (VArr []))
      | _ => step_value (FArr [] :: stk) t
      end
  | SArrNext stk acc =>
      match t with
      | TComma => Some (SValue (FArr acc :: stk))
      | TRBrack => Some (deliver stk (VArr (rev acc)))
      | _ => None
      end
  | SObjFirst stk =>
      match t with
      | TRBrace => Some (deliver stk (VObj []))
      | TString k => Some (SColon stk [] k)
      | _ => None
      end
  | SObjNext stk acc =>
      match t with
      | TComma => Some (SKey stk acc)
      | TRBrace => Some (deliver stk (VObj (rev acc)))
      | _ => None
      end
  | SKey stk acc =>
      match t with
      | TString k => Some (SColon stk acc k)
      | _ => None
      end
  | SColon stk acc k =>
      match t with
      | TColon => Some (SValue (FObj acc k :: stk))
      | _ => None
      end
  | SDone _ => None
  end.

Fixpoint run (st : pstate) (ts : list token) : option pstate :=
  match ts with
  | [] => Some st
  | t :: ts' =>
      match step st t with
      | Some st' => run st' ts'
      | None => None
      end
  end.

(** [JSON.parse(text)]: [None] stands for the thrown SyntaxError. *)
Definition JSON_parse (text : JsString) : option value :=
  match tokenize text with
  | None => None
  | Some ts =>
      match run (SValue []) ts with
      | Some (SDone v) => Some v
      | _ => None
      end
  end.

(** ** Property access and truthiness on parsed values *)

(** The value of the last member named [k]. *)
Fixpoint lookup_last (k : JsString) (ms : list (JsString * value))
  : option value :=
  match ms with
  | [] => None
  | (k', v) :: rest =>
      match lookup_last k rest with
      | Some v' => Some v'
      | None => if str_eqb k k' then Some v else None
      end
  end.

(** [v.k] for a parsed value: the outer [None] is the TypeError of reading a
    property of [null]; the inner [None] is [undefined] (no own property,
    and none of that name on the prototypes of objects, arrays, strings,
    numbers and booleans for the key the adapter reads). *)
Definition get_member (v : value) (k : JsString) : option (option value) :=
  match v with
  | VNull => None
  | VObj ms => Some (lookup_last k ms)
  | VBool _ | VNum _ _ _ | VStr _ | VArr _ => Some None
  end.

(** A decimal [mant * 10^exp10] is read as the double [0] (or [-0]) when it
    is zero or at most [2^-1075], half the smallest subnormal. *)
Definition reads_as_zero (mant : N) (exp10 : Z) : bool :=
  N.eqb mant 0
  || ((exp10 <? 0)%Z && (Z.of_N mant * 2 ^ 1075 <=? 10 ^ (- exp10))%Z).

(** [ToBoolean] *)
Definition truthy (v : value) : bool :=
  match v with
  | VNull => false
  | VBool b => b
  | VNum _ m e => negb (reads_as_zero m e)
  | VStr s => negb (length s =? 0)%nat
  | VArr _ | VObj _ => true
  end.

(** Whether [ToString] throws a TypeError, as [new Error(v)] and a template
    literal apply it.  A parsed object converts through
    [Object.prototype.toString] unless it has a member named [toString]:
    that member is data, never a function, and [valueOf] does not yield a
    primitive either.  An array converts through [join], which converts
    every element other than [null].  Exhaustion of the call stack on very
    deep arrays is not modelled. *)
Fixpoint to_string_throws (v : value) : bool :=
  match v with
  | VObj ms =>
      match lookup_last (js "toString") ms with
      | Some _ => true
      | None => false
      end
  | VArr elems =>
      existsb (fun e =>
                 match e with
                 | VNull => false
                 | _ => to_string_throws e
                 end) elems
  | VNull | VBool _ | VNum _ _ _ | VStr _ => false
  end.

End Json.

(* ================================================================== *)
(** * The command execution adapter (sf-command.ts) *)
(* ================================================================== *)

Module SfCommand.
Import Js Json.

(** The error object that [exec] passes to its callback when the process
    could not be launched or ended with a non-zero status. *)
Record ExecException : Type := mkExecException {
  exc_message : JsString;
  exc_code : option Z
}.

(** What a rejected promise carries: [new Error(arg)] built by the adapter
    (its message is [arg] converted to a string, [arg] itself when it is
    one), or the error object of [exec] passed on unchanged. *)
Inductive JsError : Type :=
| NewError (arg : value)
| ExecError (e : ExecException).

Inductive outcome : Type :=
| Resolved (payload : value)
| Rejected (err : JsError).

(** The arguments of the callback of [exec]. *)
Record ExecResult : Type := mkExecResult {
  cb_error : option ExecException;
  cb_stdout : JsString;
  cb_stderr : JsString
}.

(** [{ message: text }] *)
Definition message_object (text : JsString) : value :=
  VObj [(js "message", VStr text)].

(** A non-empty string is truthy. *)
Definition nonempty (s : JsString) : bool :=
  match s with
  | [] => false
  | _ :: _ => true
  end.

(** [sfError.message || stderr] *)
Definition message_or (m : option value) (stderr : JsString) : value :=
  match m with
  | Some v => if truthy v then v else VStr stderr
  | None => VStr stderr
  end.

(** The body of both [try] blocks over [stderr]:
    [const sfError = JSON.parse(stderr);
     return reject(new Error(sfError.message || stderr));]
    [None] when a step throws, which hands control to [catch]: the parse,
    the read of [message], or the conversion of the argument of
    [new Error] to a string. *)
Definition try_structured_error (stderr : JsString) : option JsError :=
  match JSON_parse stderr with
  | None => None
  | Some sfError =>
      match get_member sfError (js "message") with
      | None => None
      | Some m =>
          if to_string_throws (message_or m stderr) then None
          else Some (NewError (message_or m stderr))
      end
  end.

(** The callback given to [exec]. *)
Definition classify (r : ExecResult) : outcome :=
  let stdout := cb_stdout r in
  let stderr := cb_stderr r in
  match cb_error r with
  | Some error =>
      match try_structured_error stderr with
      | Some err => Rejected err
      | None => Rejected (ExecError error)
      end
  | None =>
      if nonempty stderr && negb (nonempty stdout) then
        match try_structured_error stderr with
        | Some err => Rejected err
        | None => Rejected (NewError (VStr stderr))
        end
      else
        match JSON_parse stdout with
        | Some result => Resolved result
        | None => Resolved (message_object (trim stdout))
        end
  end.

Section Adapter.

(** [child_process.exec]: the command line determines what the callback
    receives once the process has ended. *)
Variable exec : JsString -> ExecResult.

Definition executeSfCommand (command : JsString) : outcome :=
  classify (exec command).

End Adapter.

(** ** Sample inputs *)

(** [s] between double quotes. *)
Definition quoted (s : JsString) : JsString := (34%N :: s) ++ [34%N].

(** The text [{"message":"INVALID_SESSION_ID"}]. *)
Definition invalid_session_json : JsString :=
  [123%N] ++ quoted (js "message") ++ [58%N]
          ++ quoted (js "INVALID_SESSION_ID") ++ [125%N].

(** The text [{"message":{"toString":1}}]: its message cannot be converted
    to a string. *)
Definition unprintable_message_json : JsString :=
  [123%N] ++ quoted (js "message") ++ [58%N]
          ++ ([123%N] ++ quoted (js "toString") ++ [58%N] ++ js "1" ++ [125%N])
          ++ [125%N].

(** A process that prints plain text and exits with status 0. *)
Definition exec_done (_ : JsString) : ExecResult :=
  mkExecResult None (js "Done.") [].

(** A process that prints nothing at all and exits with status 0. *)
Definition exec_silent (_ : JsString) : ExecResult :=
  mkExecResult None [] [].

(** The error [exec] builds for a command that ended with status 1 after
    writing [text] to its error channel: its message is the line
    [Command failed: <command>] followed by that text. *)
Definition command_failed (command text : JsString) : ExecException :=
  mkExecException (js "Command failed: " ++ command ++ [10%N] ++ text) (Some 1%Z).

(** A failing process with a structured error on its error channel. *)
Definition exec_invalid_session (command : JsString) : ExecResult :=
  mkExecResult (Some (command_failed command invalid_session_json))
               [] invalid_session_json.

(** A failing process with plain text on its error channel. *)
Definition exec_boom (command : JsString) : ExecResult :=
  mkExecResult (Some (command_failed command (js "boom"))) [] (js "boom").

End SfCommand.

(* ================================================================== *)
(** * The manifest tools (manifest.ts) *)
(* ================================================================== *)

Module Manifest.
Import Js.

(** ** The object xml2js builds for an element

    An element without attributes and child elements is its character data,
    a string (the empty string for an empty element).  Any other element is
    an object: its attributes, its character data if any, and for every
    child element name the array of the children of that name, in document
    order. *)
Inductive node : Type :=
| Text (s : JsString)
| Elem (attrs : list (JsString * JsString)) (chardata : option JsString)
       (children : list (JsString * list node)).

(** What [parseStringPromise] settles with: a rejection for text that is
    not well-formed, [null] for blank text, else the object with the root
    element under its name. *)
Inductive parsed : Type :=
| ParseRejected (message : JsString)
| ParsedNull
| ParsedRoot (rootName : JsString) (root : node).

(** A tool handler either returns or throws an [Error] with a message. *)
Inductive result (A : Type) : Type :=
| Returned (a : A)
| Threw (message : JsString).
Arguments Returned {A} a.
Arguments Threw {A} message.

Fixpoint assoc {V : Type} (k : JsString) (l : list (JsString * V)) : option V :=
  match l with
  | [] => None
  | (k', v) :: rest => if str_eqb k k' then Some v else assoc k rest
  end.

(** Assignment to the property [k]: an existing property keeps its place. *)
Fixpoint set_assoc {V : Type} (k : JsString) (v : V) (l : list (JsString * V))
  : list (JsString * V) :=
  match l with
  | [] => [(k, v)]
  | (k', v') :: rest =>
      if str_eqb k k' then (k', v) :: rest else (k', v') :: set_assoc k v rest
  end.

(** [n.k] for the name [k] of a child element; [None] is [undefined]. *)
Definition child (n : node) (k : JsString) : option (list node) :=
  match n with
  | Text _ => None
  | Elem _ _ ch => assoc k ch
  end.

(** [type.name?.[0]] *)
Definition typeName (type : node) : option node :=
  match child type (js "name") with
  | Some (first :: _) => Some first
  | Some [] | None => None
  end.

(** [type.members] *)
Definition members (type : node) : option (list node) :=
  child type (js "members").

(** [{ ...type, members: ms }]; the tools only build it for an entry that
    has [members], hence for an object. *)
Definition with_members (type : node) (ms : list node) : node :=
  match type with
  | Text _ => Elem [] None [(js "members", ms)]
  | Elem a c ch => Elem a c (set_assoc (js "members") ms ch)
  end.

(** [parsedXml.Package] *)
Definition Package (rootName : JsString) (root : node) : option node :=
  if str_eqb rootName (js "Package") then Some root else None.

(** The array [parsedXml.Package.types] when the guard
    [!parsedXml.Package || !parsedXml.Package.types] lets it through:
    a string has no property [types], an array is always truthy. *)
Definition checked_types (pkg : option node) : option (list node) :=
  match pkg with
  | Some (Elem _ _ ch) => assoc (js "types") ch
  | Some (Text _) | None => None
  end.

(** ** getManifestSummary *)

Record SummaryItem : Type := mkSummaryItem {
  name : option node;
  memberCount : nat;
  sampleMembers : list node
}.

(** The values the report of [getManifestSummary] is rendered from; the
    rendering itself is not part of the model. *)
Record SummaryReport : Type := mkSummaryReport {
  summary : list SummaryItem;
  totalTypes : nat;
  totalItems : nat
}.

Definition summarize_type (type : node) : SummaryItem :=
  mkSummaryItem
    (typeName type)
    (match members type with Some ms => length ms | None => 0 end)
    (match members type with Some ms => slice0 ms 3 | None => [] end).

(** ** filterManifest *)

(** The parameters of the tool.  A limit is an integer here; the schema of
    the tool also lets fractional numbers through, which are left out. *)
Record FilterManifestParams : Type := mkFilterManifestParams {
  manifestPath : JsString;
  metadataTypes : list JsString;
  outputPath : option JsString;
  maxItemsPerType : option Z
}.

(** [metadataTypes.includes(typeName)]: the array holds strings only. *)
Definition includes (l : list JsString) (x : option node) : bool :=
  match x with
  | Some (Text s) => existsb (str_eqb s) l
  | Some (Elem _ _ _) | None => false
  end.

(** The callback of [.map]: limit the members of one type. *)
Definition limit_members (maxItemsPerType : Z) (type : node) : node :=
  match members type with
  | Some ms =>
      if (maxItemsPerType <? Z.of_nat (length ms))%Z
      then with_members type (slice0 ms maxItemsPerType)
      else type
  | None => type
  end.

Definition filteredTypes (metadataTypes : list JsString) (maxItemsPerType : Z)
  (types : list node) : list node :=
  map (limit_members maxItemsPerType)
      (filter (fun type => includes metadataTypes (typeName type)) types).

(** The object literal [filteredPackage.Package]. *)
Record FilteredPackage : Type := mkFilteredPackage {
  xmlns : JsString;
  types : list node;
  version : option (list node)
}.

(** What [filterManifest] hands to the builder and the total it reports.
    Building the XML and writing it to the output path are taken to
    succeed; the output path is not part of the model. *)
Record FilterReport : Type := mkFilterReport {
  written : FilteredPackage;
  filteredTotal : nat;
  maxPerType : Z
}.

Definition count_members (sum : nat) (type : node) : nat :=
  sum + match members type with Some ms => length ms | None => 0 end.

(** ** filterLargeManifest *)

(** The callback of [.map] in [filterLargeManifest], with the captured
    variable [modified] threaded through. *)
Definition limit_step (maxItemsPerType : Z) (st : list node * bool)
  (type : node) : list node * bool :=
  let (out, modified) := st in
  match members type with
  | Some ms =>
      if (maxItemsPerType <? Z.of_nat (length ms))%Z
      then (out ++ [with_members type (slice0 ms maxItemsPerType)], true)
      else (out ++ [type], modified)
  | None => (out ++ [type], modified)
  end.

(** [let modified = false; types.map(...)]: the new array and the final
    value of [modified]. *)
Definition limit_all (maxItemsPerType : Z) (types : list node)
  : list node * bool :=
  fold_left (limit_step maxItemsPerType) types ([], false).

(** [e.message] prefixed by the handler's [catch] block. *)
Definition rethrow {A : Type} (prefix : string) (r : result A) : result A :=
  match r with
  | Returned a => Returned a
  | Threw m => Threw (js prefix ++ m)
  end.

Definition null_deref : JsString :=
  js "Cannot read properties of null (reading 'Package')".

Section Tools.

(** The file system as the tools read it: the text at a path, if there is a
    file ([existsSync] and [readFileSync]). *)
Variable readFile : JsString -> option JsString.
Variable parseStringPromise : JsString -> parsed.

Definition getManifestSummary (manifestPath : JsString)
  : result SummaryReport :=
  rethrow "Failed to get manifest summary: "
    match readFile manifestPath with
    | None => Threw (js "Manifest file not found at: " ++ manifestPath)
    | Some xmlContent =>
        match parseStringPromise xmlContent with
        | ParseRejected m => Threw m
        | ParsedNull => Threw null_deref
        | ParsedRoot rootName root =>
            match checked_types (Package rootName root) with
            | None => Threw (js "Invalid package.xml format")
            | Some types =>
                let summary := map summarize_type types in
                let totalItems :=
                  fold_left (fun sum type => sum + memberCount type) summary 0 in
                Returned (mkSummaryReport summary (length summary) totalItems)
            end
        end
    end.

Definition filterManifest (params : FilterManifestParams)
  : result FilterReport :=
  let maxItemsPerType :=
    match maxItemsPerType params with Some m => m | None => 500%Z end in
  rethrow "Failed to filter manifest: "
    match readFile (manifestPath params) with
    | None => Threw (js "Manifest file not found at: " ++ manifestPath params)
    | Some xmlContent =>
        match parseStringPromise xmlContent with
        | ParseRejected m => Threw m
        | ParsedNull => Threw null_deref
        | ParsedRoot rootName root =>
            match checked_types (Package rootName root) with
            | None => Threw (js "Invalid package.xml format")
            | Some types =>
                let filteredTypes :=
                  filteredTypes (metadataTypes params) maxItemsPerType types in
                let filteredPackage :=
                  mkFilteredPackage
                    (js "http://soap.sforce.com/2006/04/metadata")
                    filteredTypes
                    (match Package rootName root with
                     | Some pkg => child pkg (js "version")
                     | None => None
                     end) in
                let totalItems := fold_left count_members filteredTypes 0 in
                Returned (mkFilterReport filteredPackage totalItems
                                         maxItemsPerType)
            end
        end
    end.

(** The helper returns nothing; what matters is whether it rewrites the
    manifest and with which object: [Some] of the object handed to the
    builder when [modified] ended up true, [None] when nothing is written. *)
Definition filterLargeManifest (manifestPath : JsString) (maxItemsPerType : Z)
  : result (option parsed) :=
  match readFile manifestPath with
  | None =>
      Threw (js "ENOENT: no such file or directory, open '" ++ manifestPath
             ++ js "'")
  | Some xmlContent =>
      match parseStringPromise xmlContent with
      | ParseRejected m => Threw m
      | ParsedNull => Threw null_deref
      | ParsedRoot rootName root =>
          match Package rootName root, checked_types (Package rootName root) with
          | Some (Elem a c ch), Some types =>
              let (limited, modified) := limit_all maxItemsPerType types in
              if modified
              then Returned
                     (Some (ParsedRoot rootName
                              (Elem a c (set_assoc (js "types") limited ch))))
              else Returned None
          | _, _ => Returned None
          end
      end
  end.

End Tools.

End Manifest.

(* ================================================================== *)
(** * Vocabulary of the properties, and sample manifests *)
(* ================================================================== *)

Module ManifestSpec.
Import Js Manifest.

(** The member list of a type entry: empty when the entry has no
    [members] at all. *)
Definition memberList (type : node) : list node :=
  match members type with
  | Some ms => ms
  | None => []
  end.

(** The type entries of a parsed document that has a [Package] root with a
    [types] collection. *)
Inductive has_types : parsed -> list node -> Prop :=
| has_types_intro a c ch types :
    assoc (js "types") ch = Some types ->
    has_types (ParsedRoot (js "Package") (Elem a c ch)) types.

(** The same, computed. *)
Definition document_types (p : parsed) : option (list node) :=
  match p with
  | ParsedRoot rootName root => checked_types (Package rootName root)
  | ParseRejected _ | ParsedNull => None
  end.

(** [type'] is [type] with its member list cut to its first [max] members
    when it has more, and [type] itself otherwise. *)
Definition truncated_to (max : Z) (type type' : node) : Prop :=
  typeName type' = typeName type
  /\ ((max < Z.of_nat (length (memberList type)))%Z ->
      memberList type' = firstn (Z.to_nat max) (memberList type)
      /\ length (memberList type') = Z.to_nat max)
  /\ ((Z.of_nat (length (memberList type)) <= max)%Z -> type' = type).

(** The entry has a [members] array with more than [max] elements. *)
Definition exceeds (max : Z) (type : node) : bool :=
  match members type with
  | Some ms => (max <? Z.of_nat (length ms))%Z
  | None => false
  end.

(** ** Sample manifests *)

Local Open Scope string_scope.

Definition texts (l : list string) : list node := map (fun s => Text (js s)) l.

Definition type_entry (nm : string) (ms : list string) : node :=
  Elem [] None [(js "members", texts ms); (js "name", texts [nm])].

Definition metadata_ns : JsString := js "http://soap.sforce.com/2006/04/metadata".

Definition package (types : list node) : parsed :=
  ParsedRoot (js "Package")
    (Elem [(js "xmlns", metadata_ns)] None
          [(js "types", types); (js "version", texts ["58.0"])]).

Definition apex5 : node := type_entry "ApexClass" ["A"; "B"; "C"; "D"; "E"].
Definition apex3 : node := type_entry "ApexClass" ["A"; "B"; "C"].
Definition apex0 : node := type_entry "ApexClass" [].
Definition account1 : node := type_entry "CustomObject" ["Account"].

(** A package.xml without any [types] element. *)
Definition package_without_types : parsed :=
  ParsedRoot (js "Package")
    (Elem [(js "xmlns", metadata_ns)] None [(js "version", texts ["58.0"])]).

Definition five_types : list node :=
  [ apex5; account1; type_entry "ApexTrigger" ["T1"; "T2"];
    type_entry "Flow" []; type_entry "Layout" ["L1"] ].

(** A file system with one manifest, whatever the path, whose text parses
    to [p]. *)
Definition read_any (_ : JsString) : option JsString := Some (js "<Package/>").
Definition parse_to (p : parsed) (_ : JsString) : parsed := p.

Definition params_for (names : list string) (max : option Z)
  : FilterManifestParams :=
  mkFilterManifestParams (js "manifest/package.xml") (map js names) None max.

End ManifestSpec.

(* ================================================================== *)
(** * Properties of the command execution adapter *)
(* ================================================================== *)

(* ================================================================== *)
(** * The other manifest workflows (manifest.ts) *)
(* ================================================================== *)

Module ManifestWorkflows.
Import Js Manifest ManifestSpec.

(** [array.join(sep)] on an array of strings. *)
Fixpoint join_with (sep : JsString) (l : list JsString) : JsString :=
  match l with
  | [] => []
  | [x] => x
  | x :: rest => x ++ sep ++ join_with sep rest
  end.

(** [type.name?.[0] === 'ApexClass'] *)
Definition is_apex (type : node) : bool :=
  match typeName type with
  | Some (Text s) => str_eqb s (js "ApexClass")
  | Some (Elem _ _ _) | None => false
  end.

(** [const apexType = types.find(...)] followed by the assignment
    [apexType.members = apexType.members.slice(0, maxClasses)] under its
    guard: the first entry named ApexClass is updated where it stands in
    the array, and nothing after it is looked at. *)
Fixpoint limit_first_apex (maxClasses : Z) (types : list node) : list node :=
  match types with
  | [] => []
  | type :: rest =>
      if is_apex type then
        match members type with
        | Some ms =>
            if (maxClasses <? Z.of_nat (length ms))%Z
            then with_members type (slice0 ms maxClasses) :: rest
            else type :: rest
        | None => type :: rest
        end
      else type :: limit_first_apex maxClasses rest
  end.

(** The object [parsedXml] after the block
    [if (parsedXml.Package && parsedXml.Package.types) { ... }]. *)
Definition limit_apex_classes (rootName : JsString) (root : node)
  (maxClasses : Z) : parsed :=
  match Package rootName root, checked_types (Package rootName root) with
  | Some (Elem a c ch), Some types =>
      ParsedRoot rootName
        (Elem a c (set_assoc (js "types") (limit_first_apex maxClasses types) ch))
  | _, _ => ParsedRoot rootName root
  end.

Record GenerateManifestParams : Type := mkGenerateManifestParams {
  orgAlias : JsString;
  outputDir : option JsString;
  preFilter : option (list JsString);
  maxItems : option Z
}.

(** What [generateManifest] did and what its message is rendered from:
    the path of the manifest, the types named after [Pre-filtered for:]
    if that line is there, the number in the line [Limited to ... items per
    type] if that line is there, and the object the manifest was rewritten
    with if it was. *)
Record GenerateReport : Type := mkGenerateReport {
  generatedPath : JsString;
  preFilteredFor : option (list JsString);
  limitedTo : option Z;
  rewrittenWith : option parsed
}.

Record RetrieveApexClassesParams : Type := mkRetrieveApexClassesParams {
  apexOrgAlias : JsString;
  apexOutputDir : option JsString;
  maxClasses : option Z
}.

Definition or_default {A : Type} (o : option A) (d : A) : A :=
  match o with
  | Some a => a
  | None => d
  end.

(** The command line of [generateManifest]. *)
Definition generate_command (outputDir orgAlias : JsString)
  (metadataTypes : option (list JsString)) : JsString :=
  js "sf project generate manifest --output-dir " ++ outputDir
  ++ js " --from-org " ++ orgAlias
  ++ match metadataTypes with
     | Some (first :: rest) =>
         js " --metadata " ++ join_with (js ",") (first :: rest)
     | Some [] | None => []
     end.

(** The two command lines of [retrieveApexClasses]. *)
Definition apex_generate_command (outputDir orgAlias : JsString) : JsString :=
  js "sf project generate manifest --output-dir " ++ outputDir
  ++ js " --from-org " ++ orgAlias ++ js " --metadata ApexClass".

Definition retrieve_command (filteredPath : JsString) : JsString :=
  js "sf project retrieve start --manifest " ++ filteredPath.

Section Workflows.

(** The environment: whether a directory exists, what creating one or
    running a command throws ([None]: nothing), the text of a file if there
    is one, the XML parser and [path.join].  Writing a file is taken to
    succeed. *)
Variable dirExists : JsString -> bool.
Variable mkdirSync : JsString -> option JsString.
Variable execSync : JsString -> option JsString.
Variable readFile : JsString -> option JsString.
Variable parseStringPromise : JsString -> parsed.
Variable join : JsString -> JsString -> JsString.

(** [if (!existsSync(dir)) mkdirSync(dir, { recursive: true })] *)
Definition ensure_dir (dir : JsString) : option JsString :=
  if dirExists dir then None else mkdirSync dir.

(** The limit is an integer here, so [maxItems < Infinity] holds. *)
Definition generateManifest (params : GenerateManifestParams)
  : result GenerateReport :=
  let outputDir := or_default (outputDir params) (js "./manifest") in
  let maxItems := or_default (maxItems params) 1000%Z in
  rethrow "Failed to generate manifest: "
    match ensure_dir outputDir with
    | Some m => Threw m
    | None =>
        match execSync (generate_command outputDir (orgAlias params)
                                         (preFilter params)) with
        | Some m => Threw m
        | None =>
            let packageXmlPath := join outputDir (js "package.xml") in
            match readFile packageXmlPath with
            | Some _ =>
                match filterLargeManifest readFile parseStringPromise
                                          packageXmlPath maxItems with
                | Threw m => Threw m
                | Returned rewritten =>
                    Returned
                      (mkGenerateReport packageXmlPath (preFilter params)
                         (if (maxItems <? 1000)%Z then Some maxItems else None)
                         rewritten)
                end
            | None => Threw (js "Failed to generate package.xml file")
            end
        end
    end.

(** [retrieveApexClasses]: the file it has written, if it got that far,
    and how it ended.  The retrieve command runs after the limited manifest
    is written. *)
Definition retrieveApexClasses (params : RetrieveApexClassesParams)
  : option (JsString * parsed) * result JsString :=
  let outputDir := or_default (apexOutputDir params) (js "./manifest") in
  let maxClasses := or_default (maxClasses params) 100%Z in
  let failed (m : JsString) : result JsString :=
    Threw (js "Failed to retrieve Apex classes: " ++ m) in
  let packageXmlPath := join outputDir (js "package.xml") in
  let command := apex_generate_command outputDir (apexOrgAlias params) in
  match ensure_dir outputDir with
  | Some m => (None, failed m)
  | None =>
      match execSync command with
      | Some m => (None, failed m)
      | None =>
          let filteredPath := join outputDir (js "package-apex-limited.xml") in
          match readFile packageXmlPath with
          | None =>
              (None, failed (js "ENOENT: no such file or directory, open '"
                             ++ packageXmlPath ++ js "'"))
          | Some xmlContent =>
              match parseStringPromise xmlContent with
              | ParseRejected m => (None, failed m)
              | ParsedNull => (None, failed null_deref)
              | ParsedRoot rootName root =>
                  let limited := limit_apex_classes rootName root maxClasses in
                  let retrieveCommand := retrieve_command filteredPath in
                  match execSync retrieveCommand with
                  | Some m => (Some (filteredPath, limited), failed m)
                  | None => (Some (filteredPath, limited), Returned filteredPath)
                  end
              end
          end
      end
  end.

End Workflows.

(** ** Sample environment *)

(** Every directory exists, every command succeeds, every file holds a
    manifest that parses to [p], and paths are joined with a slash, which
    is what [path.join] gives for a plain directory name and a file
    name. *)
Definition dir_always (_ : JsString) : bool := true.
Definition never_throws (_ : JsString) : option JsString := None.
Definition join_slash (a b : JsString) : JsString := a ++ js "/" ++ b.

(** A retrieve command that fails after a successful generate command. *)
Definition retrieve_fails (command : JsString) : option JsString :=
  if str_eqb command
       (js "sf project retrieve start --manifest manifest/package-apex-limited.xml")
  then Some (js "Command failed") else None.

Definition many (n : nat) : list node := repeat (Text (js "M")) n.

Definition big_entry (nm : string) (n : nat) : node :=
  Elem [] None [(js "members", many n); (js "name", [Text (js nm)])].

End ManifestWorkflows.

(* ================================================================== *)
(** * A caller of the adapter: view_apex_class (apex.ts) *)
(* ================================================================== *)

Module ApexTools.
Import Js Json SfCommand.

(** What the [catch] block of the handler can receive: the rejection of
    the adapter, or the TypeError of reading a property of [undefined] or
    [null]. *)
Inductive thrown : Type :=
| Rejection (e : JsError)
| TypeError.

(** The text of the handler's answer:
    [Apex Class '<name>':] and the body, which the template converts to a
    string, or
    [Error retrieving class '<name>':] and the message of the error. *)
Inductive ViewReport : Type :=
| ClassBody (className : JsString) (classBody : value)
| ViewError (className : JsString) (error : thrown).

(** [x.k] where [x] may be [undefined] ([None]); the outer [None] is the
    TypeError. *)
Definition get (x : option value) (k : JsString) : option (option value) :=
  match x with
  | None => None
  | Some v => get_member v k
  end.

(** [x[0]]: the first element of an array, the first code unit of a
    string, the member named [0] of an object. *)
Definition first_of (x : option value) : option (option value) :=
  match x with
  | None | Some VNull => None
  | Some (VArr elems) => Some (nth_error elems 0)
  | Some (VStr s) =>
      Some (match s with [] => None | c :: _ => Some (VStr [c]) end)
  | Some (VObj ms) => Some (lookup_last (js "0") ms)
  | Some (VBool _) | Some (VNum _ _ _) => Some None
  end.

(** [x?.Body] *)
Definition optional_Body (x : option value) : option value :=
  match x with
  | None | Some VNull => None
  | Some v =>
      match get_member v (js "Body") with
      | Some b => b
      | None => None
      end
  end.

(** [result.result.records[0]?.Body || "Class not found"]; [None] is the
    TypeError. *)
Definition class_body (result : value) : option value :=
  match get (Some result) (js "result") with
  | None => None
  | Some r =>
      match get r (js "records") with
      | None => None
      | Some records =>
          match first_of records with
          | None => None
          | Some first =>
              Some (match optional_Body first with
                    | Some body =>
                        if truthy body then body
                        else VStr (js "Class not found")
                    | None => VStr (js "Class not found")
                    end)
          end
      end
  end.

Definition view_command (targetOrg className : JsString) : JsString :=
  js "sf data query --target-org " ++ targetOrg ++ js " --query "
  ++ [34%N] ++ js "SELECT Body FROM ApexClass WHERE Name='" ++ className
  ++ js "'" ++ [34%N] ++ js " --json".

Section Handler.

Variable exec : JsString -> ExecResult.

Definition view_apex_class (targetOrg className : JsString) : ViewReport :=
  match executeSfCommand exec (view_command targetOrg className) with
  | Rejected e => ViewError className (Rejection e)
  | Resolved result =>
      match class_body result with
      | Some classBody =>
          if to_string_throws classBody then ViewError className TypeError
          else ClassBody className classBody
      | None => ViewError className TypeError
      end
  end.

End Handler.

(** ** Sample outputs of the query *)

Definition member_text (k : string) (v : JsString) : JsString :=
  quoted (js k) ++ [58%N] ++ v.

(** The text [{"status":0,"result":{"records":[<records>]}}]. *)
Definition query_output (records : JsString) : JsString :=
  [123%N] ++ member_text "status" (js "0") ++ [44%N]
  ++ member_text "result"
       ([123%N] ++ member_text "records" ([91%N] ++ records ++ [93%N])
        ++ [125%N])
  ++ [125%N].

(** The text [{"Body":"<body>"}] of one record. *)
Definition record_text (body : string) : JsString :=
  [123%N] ++ member_text "Body" (quoted (js body)) ++ [125%N].

Definition exec_prints (stdout : JsString) (_ : JsString) : ExecResult :=
  mkExecResult None stdout [].

End ApexTools.

(* ================================================================== *)
(** * Vocabulary for texts *)
(* ================================================================== *)

Module TextSpec.
Import Js Json.

(** Every code unit is one that [trim] strips. *)
Definition all_space (s : JsString) : Prop :=
  Forall (fun c => is_js_space c = true) s.

(** Every code unit is JSON white space. *)
Definition blank (s : JsString) : Prop :=
  Forall (fun c => is_json_ws c = true) s.

End TextSpec.

Module JsonFacts.
Import Js Json SfCommand.

(** ** The parser on sample texts *)

Example parse_nested :
  JSON_parse (js "[1, 2.50, -0, 1e5, [], {}, true, null, [false]]")
  = Some (VArr [VNum false 1 0; VNum false 250 (-2); VNum true 0 0;
                VNum false 1 5; VArr []; VObj []; VBool true; VNull;
                VArr [VBool false]]).
Proof. reflexivity. Qed.

Example parse_escapes :
  JSON_parse (quoted (js "a\u0041\n\/"))
  = Some (VStr [97; 65; 10; 47]%N).
Proof. reflexivity. Qed.

Example parse_surrounding_space : JSON_parse (js "  12  ") = Some (VNum false 12 0).
Proof. reflexivity. Qed.

Example reject_trailing_comma : JSON_parse (js "[1,]") = None.
Proof. reflexivity. Qed.

Example reject_leading_zero : JSON_parse (js "01") = None.
Proof. reflexivity. Qed.

Example reject_bare_fraction : JSON_parse (js "1.") = None.
Proof. reflexivity. Qed.

Example reject_two_values : JSON_parse (js "1 2") = None.
Proof. reflexivity. Qed.

Example reject_unclosed : JSON_parse (js "[[1]") = None.
Proof. reflexivity. Qed.

Example reject_unterminated_string : JSON_parse (34%N :: js "abc") = None.
Proof. reflexivity. Qed.

Example reject_blank : JSON_parse (js "   ") = None.
Proof. reflexivity. Qed.

(** The last of two members of the same name is the one that is read. *)
Example duplicate_member_last_wins :
  get_member (VObj [(js "message", VStr (js "a"));
                    (js "message", VStr (js "b"))]) (js "message")
  = Some (Some (VStr (js "b"))).
Proof. reflexivity. Qed.

Example zero_is_falsy :
  truthy (VNum true 0 0) = false /\ truthy (VNum false 1 (-400)) = false
  /\ truthy (VNum false 1 (-300)) = true.
Proof. repeat split; vm_compute; reflexivity. Qed.

(** Text that starts with a letter other than [t], [f] and [n] is not
    JSON. *)
Lemma parse_plain_text (c : N) (rest : JsString) :
  (65 <= c <= 90 \/ 97 <= c <= 122)%N ->
  c <> 116%N -> c <> 102%N -> c <> 110%N ->
  JSON_parse (c :: rest) = None.
Proof.
  intros Hletter Ht Hf Hn.
  unfold JSON_parse, tokenize. cbn [tokens_from].
  assert (Hws : is_json_ws c = false).
  { unfold is_json_ws. cbn [existsb].
    repeat match goal with
           | |- context [N.eqb c ?k] =>
               let E := fresh "E" in
               destruct (N.eqb_spec c k) as [E|E]; [lia|]
           end.
    reflexivity. }
  rewrite Hws.
  assert (Hlex : lex_at (c :: rest) = None).
  { unfold lex_at.
    repeat match goal with
           | |- context [N.eqb c ?k] =>
               let E := fresh "E" in
               destruct (N.eqb_spec c k) as [E|E]; [lia|]
           end.
    cbn [starts_with js].
    change (N_of_ascii "t") with 116%N.
    change (N_of_ascii "f") with 102%N.
    change (N_of_ascii "n") with 110%N.
    destruct (N.eqb_spec 116 c) as [Et|Et]; [congruence|].
    destruct (N.eqb_spec 102 c) as [Ef|Ef]; [congruence|].
    destruct (N.eqb_spec 110 c) as [En|En]; [congruence|].
    cbn [andb].
    unfold lex_number.
    destruct (N.eqb_spec c 45) as [Em|Em]; [lia|].
    cbn [span_digits]. unfold digit_val.
    destruct (N.leb_spec 48 c); destruct (N.leb_spec c 57);
      cbn [andb negb]; try reflexivity; lia. }
  rewrite Hlex. reflexivity.
Qed.

End JsonFacts.

Module SfCommandFacts.
Import Js Json SfCommand.

Lemma nonempty_true (s : JsString) : nonempty s = true <-> s <> [].
Proof.
  destruct s as [|c r]; simpl; split; intro H; congruence.
Qed.

Lemma nonempty_false (s : JsString) : nonempty s = false <-> s = [].
Proof.
  destruct s as [|c r]; simpl; split; intro H; congruence.
Qed.

(** Plain text is not JSON, and neither is the empty text. *)
Lemma parse_Done : JSON_parse (js "Done.") = None.
Proof. reflexivity. Qed.

Lemma parse_empty : JSON_parse [] = None.
Proof. reflexivity. Qed.

Lemma parse_invalid_session :
  JSON_parse invalid_session_json
  = Some (message_object (js "INVALID_SESSION_ID")).
Proof. reflexivity. Qed.

(** The structured-error attempt, case by case. *)
Lemma try_structured_error_message (stderr : JsString) (v m : value) :
  JSON_parse stderr = Some v ->
  get_member v (js "message") = Some (Some m) ->
  truthy m = true ->
  to_string_throws m = false ->
  try_structured_error stderr = Some (NewError m).
Proof.
  intros Hp Hm Ht Hs. unfold try_structured_error.
  rewrite Hp, Hm. cbn [message_or]. rewrite Ht, Hs. reflexivity.
Qed.

Lemma try_structured_error_raw (stderr : JsString) (v : value) :
  JSON_parse stderr = Some v ->
  (get_member v (js "message") = Some None
   \/ exists m, get_member v (js "message") = Some (Some m) /\ truthy m = false) ->
  try_structured_error stderr = Some (NewError (VStr stderr)).
Proof.
  intros Hp [Hm | [m [Hm Ht]]]; unfold try_structured_error;
    rewrite Hp, Hm; cbn [message_or]; [|rewrite Ht]; reflexivity.
Qed.

Lemma try_structured_error_throws (stderr : JsString) :
  JSON_parse stderr = None
  \/ JSON_parse stderr = Some VNull
  \/ (exists v m,
         JSON_parse stderr = Some v
         /\ get_member v (js "message") = Some (Some m)
         /\ truthy m = true
         /\ to_string_throws m = true) ->
  try_structured_error stderr = None.
Proof.
  intros [Hp | [Hp | (v & m & Hp & Hm & Ht & Hs)]];
    unfold try_structured_error; rewrite Hp; try reflexivity.
  rewrite Hm. cbn [message_or]. rewrite Ht, Hs. reflexivity.
Qed.

(** The attempt always rejects with an error built by the adapter. *)
Lemma try_structured_error_new (stderr : JsString) (err : JsError) :
  try_structured_error stderr = Some err -> exists arg, err = NewError arg.
Proof.
  unfold try_structured_error.
  destruct (JSON_parse stderr) as [v|]; [|discriminate].
  destruct (get_member v (js "message")) as [m|]; [|discriminate].
  destruct (to_string_throws (message_or m stderr)); [discriminate|].
  intros H. injection H as <-. eauto.
Qed.

(** C1. When the process exits successfully: error-channel text without any
    standard output gives a rejection; in every other case the promise
    resolves, with the parsed standard output when it is JSON and with
    [{message: stdout.trim()}] when it is not.  Standard output [Done.]
    resolves to [{message: "Done."}]. *)
Theorem success_exit_classification
  (exec : JsString -> ExecResult) (command stdout stderr : JsString) :
  exec command = mkExecResult None stdout stderr ->
  (stderr <> [] /\ stdout = [] ->
     exists err, executeSfCommand exec command = Rejected err)
  /\ (~ (stderr <> [] /\ stdout = []) ->
        match JSON_parse stdout with
        | Some parsed => executeSfCommand exec command = Resolved parsed
        | None =>
            executeSfCommand exec command
            = Resolved (message_object (trim stdout))
        end)
  /\ (stdout = js "Done." ->
        executeSfCommand exec command = Resolved (message_object (js "Done."))).
Proof.
  intros Hexec. unfold executeSfCommand, classify. rewrite Hexec. simpl.
  split; [|split].
  - intros [Herr Hout]. subst stdout.
    apply nonempty_true in Herr. rewrite Herr. simpl.
    destruct (try_structured_error stderr); eauto.
  - intros Hnot.
    assert (Hguard : nonempty stderr && negb (nonempty stdout) = false).
    { destruct stderr as [|c r]; [reflexivity|].
      destruct stdout as [|d q]; [|reflexivity].
      exfalso. apply Hnot. split; [discriminate | reflexivity]. }
    rewrite Hguard. destruct (JSON_parse stdout); reflexivity.
  - intros ->. rewrite andb_false_r. reflexivity.
Qed.

Lemma success_exit_classification_witness :
  executeSfCommand exec_done (js "sf org list")
  = Resolved (message_object (js "Done.")).
Proof.
  apply (success_exit_classification exec_done (js "sf org list")
           (stdout := js "Done.") (stderr := []) eq_refl).
  reflexivity.
Defined.

(** C10. A successful exit with nothing on either channel resolves with
    [{message: ""}]. *)
Theorem silent_success_resolves
  (exec : JsString -> ExecResult) (command : JsString) :
  exec command = mkExecResult None [] [] ->
  executeSfCommand exec command = Resolved (message_object []).
Proof.
  intros Hexec. unfold executeSfCommand. rewrite Hexec. reflexivity.
Qed.

Lemma silent_success_resolves_witness :
  executeSfCommand exec_silent (js "sf org list") = Resolved (message_object []).
Proof.
  apply (silent_success_resolves exec_silent (js "sf org list")).
  reflexivity.
Defined.

(** C2, as the code has it.  When [exec] reports an error (non-zero exit or
    failed launch) the adapter parses the error-channel text as JSON:
    a truthy [message] member that converts to a string gives
    [Error(message)]; a parsed value without a truthy [message] gives
    [Error(stderr)]; and when the text is not JSON, is [null], or holds a
    message that cannot be converted to a string, the promise is rejected
    with the error object of [exec] itself, unchanged.  The text
    [{"message":"INVALID_SESSION_ID"}] gives
    [Error("INVALID_SESSION_ID")]. *)
Theorem failed_exit_classification
  (exec : JsString -> ExecResult) (command stdout stderr : JsString)
  (error : ExecException) :
  exec command = mkExecResult (Some error) stdout stderr ->
  (forall v m,
      JSON_parse stderr = Some v ->
      get_member v (js "message") = Some (Some m) ->
      truthy m = true ->
      to_string_throws m = false ->
      executeSfCommand exec command = Rejected (NewError m))
  /\ (forall v,
        JSON_parse stderr = Some v ->
        (get_member v (js "message") = Some None
         \/ exists m, get_member v (js "message") = Some (Some m)
                      /\ truthy m = false) ->
        executeSfCommand exec command = Rejected (NewError (VStr stderr)))
  /\ (JSON_parse stderr = None
      \/ JSON_parse stderr = Some VNull
      \/ (exists v m,
             JSON_parse stderr = Some v
             /\ get_member v (js "message") = Some (Some m)
             /\ truthy m = true
             /\ to_string_throws m = true) ->
        executeSfCommand exec command = Rejected (ExecError error))
  /\ (stderr = invalid_session_json ->
        executeSfCommand exec command
        = Rejected (NewError (VStr (js "INVALID_SESSION_ID")))).
Proof.
  intros Hexec. unfold executeSfCommand, classify. rewrite Hexec. simpl.
  repeat split.
  - intros v m Hp Hm Ht Hs.
    rewrite (@try_structured_error_message stderr v m Hp Hm Ht Hs).
    reflexivity.
  - intros v Hp Hcase.
    rewrite (@try_structured_error_raw stderr v Hp Hcase). reflexivity.
  - intros Hcase.
    rewrite (@try_structured_error_throws stderr Hcase). reflexivity.
  - intros ->. reflexivity.
Qed.

Lemma failed_exit_classification_witness :
  executeSfCommand exec_invalid_session (js "sf org list")
  = Rejected (NewError (VStr (js "INVALID_SESSION_ID")))
  /\ executeSfCommand exec_boom (js "sf org list")
     = Rejected (ExecError (command_failed (js "sf org list") (js "boom"))).
Proof.
  split.
  - apply (failed_exit_classification exec_invalid_session (js "sf org list")
             (stdout := []) (stderr := invalid_session_json)
             (error := command_failed (js "sf org list") invalid_session_json)
             eq_refl).
    reflexivity.
  - apply (failed_exit_classification exec_boom (js "sf org list")
             (stdout := []) (stderr := js "boom")
             (error := command_failed (js "sf org list") (js "boom"))
             eq_refl).
    left. reflexivity.
Defined.

(** C2 as the specification words it fails: plain text [boom] on the error
    channel of a failed command is not JSON, and the promise is rejected
    with the error object of [exec], whose message is not that text. *)
Lemma failed_exit_plain_text_keeps_exec_error :
  JSON_parse (js "boom") = None
  /\ executeSfCommand exec_boom (js "sf org list")
     = Rejected (ExecError (command_failed (js "sf org list") (js "boom")))
  /\ exc_message (command_failed (js "sf org list") (js "boom")) <> js "boom"
  /\ executeSfCommand exec_boom (js "sf org list")
     <> Rejected (NewError (VStr (js "boom"))).
Proof.
  repeat split; try reflexivity; discriminate.
Qed.

(** A message that cannot be converted to a string makes [new Error]
    throw inside the [try] block: after a failed command the error of
    [exec] is passed on, after a successful one the raw text is used. *)
Example unprintable_message_goes_to_catch :
  executeSfCommand
    (fun command =>
       mkExecResult (Some (command_failed command unprintable_message_json))
                    [] unprintable_message_json)
    (js "sf org list")
  = Rejected (ExecError (command_failed (js "sf org list")
                                        unprintable_message_json))
  /\ executeSfCommand
       (fun _ => mkExecResult None [] unprintable_message_json)
       (js "sf org list")
     = Rejected (NewError (VStr unprintable_message_json)).
Proof. split; reflexivity. Qed.

End SfCommandFacts.

(* ================================================================== *)
(** * Properties of the manifest tools *)
(* ================================================================== *)

Module ManifestFacts.
Import Js Manifest ManifestSpec.

(** ** Strings and property tables *)

Lemma str_eqb_eq (a b : JsString) : str_eqb a b = true <-> a = b.
Proof.
  revert b. induction a as [|x a IH]; intros [|y b]; simpl;
    try (split; congruence).
  rewrite andb_true_iff, N.eqb_eq, IH. split.
  - intros [-> ->]. reflexivity.
  - intros H. injection H as -> ->. split; reflexivity.
Qed.

Lemma str_eqb_refl (a : JsString) : str_eqb a a = true.
Proof. apply str_eqb_eq. reflexivity. Qed.

Lemma assoc_set_assoc_same {V : Type} (k : JsString) (v : V) l :
  assoc k (set_assoc k v l) = Some v.
Proof.
  induction l as [|[k' v'] l IH]; simpl.
  - rewrite str_eqb_refl. reflexivity.
  - destruct (str_eqb k k') eqn:E; simpl; rewrite E; auto.
Qed.

Lemma assoc_set_assoc_other {V : Type} (k k' : JsString) (v : V) l :
  str_eqb k k' = false -> assoc k (set_assoc k' v l) = assoc k l.
Proof.
  intros Hne. induction l as [|[k0 v0] l IH]; simpl.
  - rewrite Hne. reflexivity.
  - destruct (str_eqb k' k0) eqn:E; simpl.
    + apply str_eqb_eq in E. subst k0. rewrite Hne. reflexivity.
    + destruct (str_eqb k k0); auto.
Qed.

(** ** [slice(0, end)] *)

Lemma slice0_prefix {A : Type} (l : list A) (max : Z) :
  (0 <= max < Z.of_nat (length l))%Z ->
  slice0 l max = firstn (Z.to_nat max) l
  /\ length (slice0 l max) = Z.to_nat max.
Proof.
  intros [Hlo Hhi]. unfold slice0.
  destruct (max <? 0)%Z eqn:E; [apply Z.ltb_lt in E; lia|].
  rewrite Z.min_l by lia. split; [reflexivity|].
  rewrite length_firstn. lia.
Qed.

Lemma slice0_zero {A : Type} (l : list A) : slice0 l 0 = [].
Proof.
  unfold slice0. simpl. rewrite Z.min_l by lia. reflexivity.
Qed.

Lemma slice0_negative {A : Type} (l : list A) (max : Z) :
  (max < 0)%Z ->
  slice0 l max = firstn (Z.to_nat (Z.of_nat (length l) + max)) l.
Proof.
  intros Hneg. unfold slice0.
  destruct (max <? 0)%Z eqn:E; [|apply Z.ltb_ge in E; lia].
  f_equal. lia.
Qed.

Lemma slice0_three {A : Type} (l : list A) : slice0 l 3 = firstn 3 l.
Proof.
  unfold slice0. change (3 <? 0)%Z with false. cbv iota.
  destruct (Z.min_spec 3 (Z.of_nat (length l))) as [[Hlt ->] | [Hge ->]].
  - reflexivity.
  - rewrite Nat2Z.id, firstn_all.
    symmetry. apply firstn_all2. lia.
Qed.

(** ** One type entry *)

Lemma members_Some_Elem (type : node) (ms : list node) :
  members type = Some ms -> exists a c ch, type = Elem a c ch.
Proof.
  destruct type as [s | a c ch]; simpl; [discriminate | eauto].
Qed.

Lemma typeName_with_members a c ch (ms : list node) :
  typeName (with_members (Elem a c ch) ms) = typeName (Elem a c ch).
Proof.
  unfold typeName, child. simpl.
  rewrite assoc_set_assoc_other by reflexivity. reflexivity.
Qed.

Lemma members_with_members a c ch (ms : list node) :
  members (with_members (Elem a c ch) ms) = Some ms.
Proof.
  unfold members, child. simpl. apply assoc_set_assoc_same.
Qed.

Lemma limit_members_name (max : Z) (type : node) :
  typeName (limit_members max type) = typeName type.
Proof.
  unfold limit_members.
  destruct (members type) as [ms|] eqn:Hm; [|reflexivity].
  destruct (max <? Z.of_nat (length ms))%Z; [|reflexivity].
  destruct (members_Some_Elem _ Hm) as (a & c & ch & ->).
  apply typeName_with_members.
Qed.

Lemma exceeds_nonneg (max : Z) (type : node) :
  (0 <= max)%Z ->
  exceeds max type = (max <? Z.of_nat (length (memberList type)))%Z.
Proof.
  intros Hle. unfold exceeds, memberList.
  destruct (members type); [reflexivity|].
  symmetry. apply Z.ltb_ge. simpl. exact Hle.
Qed.

Lemma limit_members_exceeding (max : Z) (type : node) :
  exceeds max type = true ->
  memberList (limit_members max type) = slice0 (memberList type) max.
Proof.
  unfold exceeds, memberList, limit_members.
  destruct (members type) as [ms|] eqn:Hm; [|discriminate].
  intros ->.
  destruct (members_Some_Elem _ Hm) as (a & c & ch & ->).
  rewrite members_with_members. reflexivity.
Qed.

Lemma limit_members_within (max : Z) (type : node) :
  exceeds max type = false -> limit_members max type = type.
Proof.
  unfold exceeds, memberList, limit_members.
  destruct (members type) as [ms|]; [|reflexivity].
  intros ->. reflexivity.
Qed.

(** With a positive limit the callback performs the prefix truncation. *)
Lemma limit_members_truncates (max : Z) (type : node) :
  (0 < max)%Z -> truncated_to max type (limit_members max type).
Proof.
  intros Hpos. split; [apply limit_members_name|]. split.
  - intros Hgt.
    assert (He : exceeds max type = true).
    { rewrite exceeds_nonneg by lia. apply Z.ltb_lt. exact Hgt. }
    rewrite (limit_members_exceeding _ _ He).
    apply slice0_prefix. lia.
  - intros Hle. apply limit_members_within.
    rewrite exceeds_nonneg by lia. apply Z.ltb_ge. exact Hle.
Qed.

Lemma Forall2_map_right {A B : Type} (R : A -> B -> Prop) (f : A -> B) l :
  (forall x, R x (f x)) -> Forall2 R l (map f l).
Proof.
  intros H. induction l; simpl; constructor; auto.
Qed.

(** ** Parsed documents *)

Lemma document_types_has_types (p : parsed) (types : list node) :
  document_types p = Some types <-> has_types p types.
Proof.
  split.
  - destruct p as [m | | rootName root]; simpl; try discriminate.
    unfold Package. destruct (str_eqb rootName (js "Package")) eqn:E;
      [|discriminate].
    apply str_eqb_eq in E. subst rootName.
    destruct root as [s | a c ch]; simpl; [discriminate|].
    intros H. constructor. exact H.
  - intros [a c ch tys H]. simpl. exact H.
Qed.

(** ** What the tools return on a document with a types collection *)

Section Returns.

Variable readFile : JsString -> option JsString.
Variable parseStringPromise : JsString -> parsed.

Lemma getManifestSummary_returns (path text : JsString) (tys : list node) :
  readFile path = Some text ->
  document_types (parseStringPromise text) = Some tys ->
  getManifestSummary readFile parseStringPromise path
  = Returned
      (mkSummaryReport
         (map summarize_type tys)
         (length (map summarize_type tys))
         (fold_left (fun sum item => sum + memberCount item)
                    (map summarize_type tys) 0)).
Proof.
  intros Hread Hdoc. unfold getManifestSummary. rewrite Hread.
  destruct (parseStringPromise text) as [m | | rootName root];
    simpl in Hdoc; try discriminate.
  rewrite Hdoc. reflexivity.
Qed.

Lemma filterManifest_returns (params : FilterManifestParams)
  (text : JsString) (tys : list node) :
  readFile (manifestPath params) = Some text ->
  document_types (parseStringPromise text) = Some tys ->
  exists report,
    filterManifest readFile parseStringPromise params = Returned report
    /\ types (written report)
       = filteredTypes (metadataTypes params)
           (match maxItemsPerType params with Some m => m | None => 500%Z end)
           tys.
Proof.
  intros Hread Hdoc. unfold filterManifest. rewrite Hread.
  destruct (parseStringPromise text) as [m | | rootName root];
    simpl in Hdoc; try discriminate.
  rewrite Hdoc. simpl. eexists. split; reflexivity.
Qed.

Lemma limit_step_one (max : Z) (acc : list node) (modified : bool)
  (type : node) :
  limit_step max (acc, modified) type
  = (acc ++ [limit_members max type], modified || exceeds max type).
Proof.
  unfold limit_step, limit_members, exceeds.
  destruct (members type) as [ms|].
  - destruct (max <? Z.of_nat (length ms))%Z.
    + rewrite orb_true_r. reflexivity.
    + rewrite orb_false_r. reflexivity.
  - rewrite orb_false_r. reflexivity.
Qed.

Lemma limit_step_fold (max : Z) (tys acc : list node) (modified : bool) :
  fold_left (limit_step max) tys (acc, modified)
  = (acc ++ map (limit_members max) tys,
     modified || existsb (exceeds max) tys).
Proof.
  revert acc modified. induction tys as [|type tys IH]; intros acc modified.
  - simpl. rewrite app_nil_r, orb_false_r. reflexivity.
  - cbn [fold_left map existsb].
    rewrite limit_step_one, IH, <- app_assoc, orb_assoc. reflexivity.
Qed.

Lemma limit_all_map (max : Z) (tys : list node) :
  limit_all max tys
  = (map (limit_members max) tys, existsb (exceeds max) tys).
Proof. unfold limit_all. apply limit_step_fold. Qed.

Lemma none_exceeds (max : Z) (tys : list node) :
  existsb (exceeds max) tys = false ->
  map (limit_members max) tys = tys.
Proof.
  induction tys as [|type tys IH]; simpl; intros H; [reflexivity|].
  apply orb_false_iff in H. destruct H as [Ht Hrest].
  rewrite (IH Hrest), (limit_members_within _ _ Ht). reflexivity.
Qed.

Lemma none_exceeds_bound (max : Z) (tys : list node) :
  (0 <= max)%Z ->
  existsb (exceeds max) tys = false ->
  Forall (fun type => (Z.of_nat (length (memberList type)) <= max)%Z) tys.
Proof.
  intros Hle. induction tys as [|type tys IH]; simpl; intros H; constructor.
  - apply orb_false_iff in H. destruct H as [Ht _].
    rewrite exceeds_nonneg in Ht by exact Hle. apply Z.ltb_ge. exact Ht.
  - apply IH. apply orb_false_iff in H. tauto.
Qed.

Lemma filterLargeManifest_returns (path text : JsString) (tys : list node)
  (max : Z) :
  readFile path = Some text ->
  document_types (parseStringPromise text) = Some tys ->
  (existsb (exceeds max) tys = true ->
     exists rewritten,
       filterLargeManifest readFile parseStringPromise path max
       = Returned (Some rewritten)
       /\ document_types rewritten = Some (map (limit_members max) tys))
  /\ (existsb (exceeds max) tys = false ->
        filterLargeManifest readFile parseStringPromise path max
        = Returned None).
Proof.
  intros Hread Hdoc. unfold filterLargeManifest. rewrite Hread.
  destruct (parseStringPromise text) as [m | | rootName root];
    cbn [document_types] in Hdoc; try discriminate.
  unfold Package in *.
  destruct (str_eqb rootName (js "Package")) eqn:E; [|discriminate].
  destruct root as [s | a c ch]; cbn [checked_types] in *; [discriminate|].
  rewrite Hdoc, limit_all_map.
  split; intros ->.
  - eexists. split; [reflexivity|].
    cbn [document_types]. unfold Package. rewrite E.
    cbn [checked_types]. apply assoc_set_assoc_same.
  - reflexivity.
Qed.

End Returns.

(** ** Selection by name *)

Lemma includes_spec (names : list JsString) (type : node) :
  includes names (typeName type) = true
  <-> exists s, typeName type = Some (Text s) /\ In s names.
Proof.
  destruct (typeName type) as [[s | a c ch]|]; simpl.
  - rewrite existsb_exists. split.
    + intros [x [Hin Heq]]. apply str_eqb_eq in Heq. subst x. eauto.
    + intros [s' [Heq Hin]]. injection Heq as <-.
      exists s. split; [exact Hin | apply str_eqb_refl].
  - split; [discriminate | intros [s [H _]]; discriminate].
  - split; [discriminate | intros [s [H _]]; discriminate].
Qed.

Lemma filteredTypes_names (names : list JsString) (max : Z) (tys : list node) :
  map typeName (filteredTypes names max tys)
  = filter (includes names) (map typeName tys).
Proof.
  unfold filteredTypes. induction tys as [|type tys IH]; simpl; [reflexivity|].
  destruct (includes names (typeName type)); simpl; rewrite IH;
    [rewrite limit_members_name|]; reflexivity.
Qed.

Lemma filteredTypes_In (names : list JsString) (max : Z) (tys : list node)
  (type' : node) :
  In type' (filteredTypes names max tys) ->
  exists type, In type tys /\ includes names (typeName type) = true
               /\ typeName type' = typeName type.
Proof.
  unfold filteredTypes. rewrite in_map_iff.
  intros [type [<- Hin]]. apply filter_In in Hin. destruct Hin as [Hin Hinc].
  exists type. repeat split; auto. apply limit_members_name.
Qed.

Lemma filteredTypes_no_names (max : Z) (tys : list node) :
  filteredTypes [] max tys = [].
Proof.
  unfold filteredTypes. induction tys as [|type tys IH]; simpl; [reflexivity|].
  destruct (typeName type) as [[s | a c ch]|]; simpl; exact IH.
Qed.

Lemma limit_members_prefix (max : Z) (type : node) :
  exists rest, memberList type = memberList (limit_members max type) ++ rest.
Proof.
  destruct (exceeds max type) eqn:E.
  - rewrite (limit_members_exceeding _ _ E). unfold slice0.
    eexists. symmetry. apply firstn_skipn.
  - rewrite (limit_members_within _ _ E). exists []. symmetry. apply app_nil_r.
Qed.

Lemma limit_members_nonpositive (max : Z) (type : node) :
  (max <= 0)%Z ->
  (max = 0%Z -> memberList (limit_members max type) = [])
  /\ ((max < 0)%Z ->
        memberList (limit_members max type)
        = firstn (Z.to_nat (Z.of_nat (length (memberList type)) + max))
                 (memberList type)).
Proof.
  intros Hle. destruct (exceeds max type) eqn:E.
  - rewrite (limit_members_exceeding _ _ E). split.
    + intros ->. apply slice0_zero.
    + apply slice0_negative.
  - rewrite (limit_members_within _ _ E).
    unfold exceeds, memberList in *.
    destruct (members type) as [ms|].
    + apply Z.ltb_ge in E.
      assert (Hnil : ms = []) by (destruct ms; [reflexivity | simpl in E; lia]).
      subst ms. split; intros _; [reflexivity | symmetry; apply firstn_nil].
    + split; intros _; [reflexivity | symmetry; apply firstn_nil].
Qed.

(** ** Summaries *)

Lemma fold_left_memberCount (items : list SummaryItem) (start : nat) :
  fold_left (fun sum item => sum + memberCount item) items start
  = start + list_sum (map memberCount items).
Proof.
  revert start. induction items as [|item items IH]; intros start; simpl.
  - lia.
  - rewrite IH. lia.
Qed.

Lemma summarize_type_spec (type : node) :
  name (summarize_type type) = typeName type
  /\ memberCount (summarize_type type) = length (memberList type)
  /\ sampleMembers (summarize_type type) = firstn 3 (memberList type).
Proof.
  unfold summarize_type, memberList. simpl.
  destruct (members type) as [ms|]; repeat split.
  apply slice0_three.
Qed.

(** ** Truncation *)

(** C3. With a positive limit (the one given, or the default 500), every
    entry retained by [filterManifest] and
    every entry of the manifest rewritten by [filterLargeManifest] is the
    source entry cut to exactly its first [max] members when it has more
    than [max], and the source entry itself when it has at most [max]. *)
Theorem prefix_truncation
  (readFile : JsString -> option JsString) (parse : JsString -> parsed)
  (params : FilterManifestParams) (text : JsString) (tys : list node)
  (max : Z) :
  readFile (manifestPath params) = Some text ->
  document_types (parse text) = Some tys ->
  match maxItemsPerType params with Some m => m | None => 500%Z end = max ->
  (0 < max)%Z ->
  (exists report,
      filterManifest readFile parse params = Returned report
      /\ Forall2 (truncated_to max)
           (filter (fun type => includes (metadataTypes params) (typeName type))
                   tys)
           (types (written report)))
  /\ (exists out,
        filterLargeManifest readFile parse (manifestPath params) max
        = Returned out
        /\ match out with
           | Some rewritten =>
               exists tys', document_types rewritten = Some tys'
                            /\ Forall2 (truncated_to max) tys tys'
           | None =>
               Forall (fun type =>
                         (Z.of_nat (length (memberList type)) <= max)%Z) tys
           end).
Proof.
  intros Hread Hdoc Hmax Hpos. split.
  - destruct (filterManifest_returns readFile parse params Hread Hdoc)
      as [report [Hret Htypes]].
    exists report. split; [exact Hret|].
    rewrite Htypes, Hmax. unfold filteredTypes.
    apply Forall2_map_right. intros type.
    apply limit_members_truncates. exact Hpos.
  - destruct (filterLargeManifest_returns readFile parse
                (manifestPath params) max Hread Hdoc) as [Hyes Hno].
    destruct (existsb (exceeds max) tys) eqn:E.
    + destruct (Hyes eq_refl) as [rewritten [Hret Hdoc']].
      exists (Some rewritten). split; [exact Hret|].
      exists (map (limit_members max) tys). split; [exact Hdoc'|].
      apply Forall2_map_right. intros type.
      apply limit_members_truncates. exact Hpos.
    + exists None. split; [apply Hno; reflexivity|].
      apply none_exceeds_bound; [lia | exact E].
Qed.

Lemma prefix_truncation_witness :
  (exists report,
      filterManifest read_any (parse_to (package [apex5; account1]))
                     (params_for ["ApexClass"%string] (Some 3%Z))
      = Returned report
      /\ Forall2 (truncated_to 3)
           (filter (fun type => includes [js "ApexClass"] (typeName type))
                   [apex5; account1])
           (types (written report)))
  /\ (exists out,
        filterLargeManifest read_any (parse_to (package [apex5; account1]))
                            (js "manifest/package.xml") 3
        = Returned out
        /\ match out with
           | Some rewritten =>
               exists tys', document_types rewritten = Some tys'
                            /\ Forall2 (truncated_to 3) [apex5; account1] tys'
           | None =>
               Forall (fun type =>
                         (Z.of_nat (length (memberList type)) <= 3)%Z)
                      [apex5; account1]
           end).
Proof.
  apply (prefix_truncation read_any (parse_to (package [apex5; account1]))
           (params_for ["ApexClass"%string] (Some 3%Z))
           (text := js "<Package/>") (tys := [apex5; account1]) (max := 3%Z)).
  - reflexivity.
  - reflexivity.
  - reflexivity.
  - lia.
Defined.

(** The scenario of the specification: five members limited to three. *)
Example apex_limited_to_three :
  exists report,
    filterManifest read_any (parse_to (package [apex5]))
                   (params_for ["ApexClass"%string] (Some 3%Z))
    = Returned report
    /\ types (written report) = [apex3]
    /\ filteredTotal report = 3.
Proof. eexists. repeat split. Qed.

(** ** Selection *)

(** C4. [filterManifest] keeps the entries whose name is one of the
    requested names, in their original order, each with its own name and a
    prefix of its own members, and no other entry.  With no requested name
    it returns a package with no types, and a requested name that no entry
    bears adds no entry; neither is an error. *)
Theorem filter_by_name
  (readFile : JsString -> option JsString) (parse : JsString -> parsed)
  (params : FilterManifestParams) (text : JsString) (tys : list node) :
  readFile (manifestPath params) = Some text ->
  document_types (parse text) = Some tys ->
  exists report,
    filterManifest readFile parse params = Returned report
    /\ Forall2 (fun type type' =>
                  typeName type' = typeName type
                  /\ exists rest,
                       memberList type = memberList type' ++ rest)
         (filter (fun type => includes (metadataTypes params) (typeName type))
                 tys)
         (types (written report))
    /\ (forall type,
          includes (metadataTypes params) (typeName type) = true
          <-> exists s, typeName type = Some (Text s)
                        /\ In s (metadataTypes params))
    /\ map typeName (types (written report))
       = filter (includes (metadataTypes params)) (map typeName tys)
    /\ (metadataTypes params = [] -> types (written report) = [])
    /\ (forall s,
          (forall type, In type tys -> typeName type <> Some (Text s)) ->
          forall type', In type' (types (written report)) ->
                        typeName type' <> Some (Text s)).
Proof.
  intros Hread Hdoc.
  destruct (filterManifest_returns readFile parse params Hread Hdoc)
    as [report [Hret Htypes]].
  exists report. split; [exact Hret|]. rewrite Htypes.
  split; [|split; [|split; [|split]]].
  - unfold filteredTypes. apply Forall2_map_right. intros type.
    split; [apply limit_members_name | apply limit_members_prefix].
  - intros type. apply includes_spec.
  - apply filteredTypes_names.
  - intros ->. apply filteredTypes_no_names.
  - intros s Habsent type' Hin.
    destruct (filteredTypes_In _ _ _ _ Hin) as [type [Hsrc [_ Hname]]].
    rewrite Hname. apply Habsent. exact Hsrc.
Qed.

(** No requested name on a manifest of five types: a package without types,
    and no error. *)
Lemma filter_by_name_witness :
  exists report,
    filterManifest read_any (parse_to (package five_types))
                   (params_for [] None) = Returned report
    /\ types (written report) = [].
Proof.
  destruct (filter_by_name read_any (parse_to (package five_types))
              (params_for [] None)
              (text := js "<Package/>") (tys := five_types)
              eq_refl eq_refl)
    as [report [Hret [_ [_ [_ [Hnone _]]]]]].
  exists report. split; [exact Hret | apply Hnone; reflexivity].
Defined.

(** ** Limits that are not positive *)

(** C5 as the specification words it fails: with the limit 0 the filter
    returns normally, and the retained entry has lost all its members. *)
Lemma zero_limit_empties_members :
  filterManifest read_any (parse_to (package [apex5; account1]))
                 (params_for ["ApexClass"%string] (Some 0%Z))
  = Returned
      (mkFilterReport
         (mkFilteredPackage metadata_ns [apex0] (Some (texts ["58.0"%string])))
         0 0%Z)
  /\ forall m,
       filterManifest read_any (parse_to (package [apex5; account1]))
                      (params_for ["ApexClass"%string] (Some 0%Z))
       <> Threw m.
Proof.
  split; [reflexivity | discriminate].
Qed.

(** C5, as the code has it.  A limit of zero or below is not rejected:
    [filterManifest] returns normally; with the limit 0 every retained
    entry comes out without members, and with a limit [-k] every retained
    entry comes out without its last [k] members (without any when it has
    at most [k]). *)
Theorem nonpositive_limit_accepted
  (readFile : JsString -> option JsString) (parse : JsString -> parsed)
  (params : FilterManifestParams) (text : JsString) (tys : list node)
  (max : Z) :
  readFile (manifestPath params) = Some text ->
  document_types (parse text) = Some tys ->
  maxItemsPerType params = Some max ->
  (max <= 0)%Z ->
  exists report,
    filterManifest readFile parse params = Returned report
    /\ Forall2 (fun type type' =>
                  typeName type' = typeName type
                  /\ (max = 0%Z -> memberList type' = [])
                  /\ ((max < 0)%Z ->
                      memberList type'
                      = firstn (Z.to_nat (Z.of_nat (length (memberList type))
                                          + max))
                               (memberList type)))
         (filter (fun type => includes (metadataTypes params) (typeName type))
                 tys)
         (types (written report)).
Proof.
  intros Hread Hdoc Hmax Hle.
  destruct (filterManifest_returns readFile parse params Hread Hdoc)
    as [report [Hret Htypes]].
  exists report. split; [exact Hret|].
  rewrite Htypes, Hmax. unfold filteredTypes.
  apply Forall2_map_right. intros type.
  split; [apply limit_members_name | apply limit_members_nonpositive, Hle].
Qed.

Lemma nonpositive_limit_accepted_witness :
  exists report,
    filterManifest read_any (parse_to (package [apex5; account1]))
                   (params_for ["ApexClass"%string; "CustomObject"%string]
                               (Some (-2)%Z))
    = Returned report
    /\ Forall2 (fun type type' =>
                  typeName type' = typeName type
                  /\ ((-2)%Z = 0%Z -> memberList type' = [])
                  /\ ((-2 < 0)%Z ->
                      memberList type'
                      = firstn (Z.to_nat (Z.of_nat (length (memberList type))
                                          + -2))
                               (memberList type)))
         (filter (fun type =>
                    includes [js "ApexClass"; js "CustomObject"]
                             (typeName type))
                 [apex5; account1])
         (types (written report)).
Proof.
  apply (nonpositive_limit_accepted read_any
           (parse_to (package [apex5; account1]))
           (params_for ["ApexClass"%string; "CustomObject"%string]
                       (Some (-2)%Z))
           (text := js "<Package/>") (tys := [apex5; account1])
           (max := (-2)%Z)).
  - reflexivity.
  - reflexivity.
  - reflexivity.
  - lia.
Defined.

(** ** The summary *)



(** ** Auto-limit *)

(** C7 as the specification words it fails: [modified] is one flag for the
    whole manifest.  It ends up true for a manifest whose second entry is
    within the limit and comes out unchanged. *)
Lemma modified_flag_is_per_manifest :
  limit_all 3 [apex5; account1] = ([apex3; account1], true)
  /\ In account1 [apex5; account1]
  /\ exceeds 3 account1 = false
  /\ limit_members 3 account1 = account1.
Proof.
  repeat split. right. left. reflexivity.
Qed.

(** C7, as the code has it.  [filterLargeManifest] applies the callback of
    [filterManifest] to every entry, whatever its name, and keeps a single
    flag [modified] that is true when at least one entry had more members
    than the limit.  The flag is not handed to the caller: it decides
    whether the manifest is rewritten (with every entry limited) or left as
    it is.  One entry of five members limited to three comes out with its
    first three members and [modified] true. *)
Theorem auto_limit
  (readFile : JsString -> option JsString) (parse : JsString -> parsed)
  (path text : JsString) (tys : list node) (max : Z) :
  readFile path = Some text ->
  document_types (parse text) = Some tys ->
  limit_all max tys
  = (map (limit_members max) tys, existsb (exceeds max) tys)
  /\ ((0 < max)%Z -> Forall2 (truncated_to max) tys (fst (limit_all max tys)))
  /\ (existsb (exceeds max) tys = true ->
        exists rewritten,
          filterLargeManifest readFile parse path max
          = Returned (Some rewritten)
          /\ document_types rewritten = Some (fst (limit_all max tys)))
  /\ (existsb (exceeds max) tys = false ->
        filterLargeManifest readFile parse path max = Returned None
        /\ fst (limit_all max tys) = tys)
  /\ limit_all 3 [apex5] = ([apex3], true).
Proof.
  intros Hread Hdoc. rewrite limit_all_map. cbn [fst].
  destruct (filterLargeManifest_returns readFile parse path max Hread Hdoc)
    as [Hyes Hno].
  split; [reflexivity|]. split; [|split; [|split]].
  - intros Hpos. apply Forall2_map_right. intros type.
    apply limit_members_truncates. exact Hpos.
  - exact Hyes.
  - intros E. split; [apply Hno, E | apply none_exceeds, E].
  - reflexivity.
Qed.

Lemma auto_limit_witness :
  exists rewritten,
    filterLargeManifest read_any (parse_to (package [apex5]))
                        (js "manifest/package.xml") 3
    = Returned (Some rewritten)
    /\ document_types rewritten = Some (fst (limit_all 3 [apex5])).
Proof.
  destruct (auto_limit read_any (parse_to (package [apex5]))
              (js "manifest/package.xml")
              (text := js "<Package/>") (tys := [apex5]) 3
              eq_refl eq_refl)
    as [_ [_ [Hyes _]]].
  apply Hyes. reflexivity.
Defined.

(** ** Documents without the required structure *)

Lemma no_types_no_document (p : parsed) :
  (forall tys, ~ has_types p tys) -> document_types p = None.
Proof.
  intros Hnone. destruct (document_types p) as [tys|] eqn:E; [|reflexivity].
  apply document_types_has_types in E. destruct (Hnone tys E).
Qed.




End ManifestFacts.

(* ================================================================== *)
(** * Further properties of the command execution adapter *)
(* ================================================================== *)

Module SfCommandMore.
Import Js Json SfCommand TextSpec.

(** ** Trimming *)

Lemma trimStart_split (s : JsString) :
  exists pre, s = pre ++ trimStart s /\ all_space pre.
Proof.
  induction s as [|c r IH]; simpl.
  - exists []. split; [reflexivity | constructor].
  - destruct (is_js_space c) eqn:E.
    + destruct IH as [pre [Heq Hpre]].
      exists (c :: pre). split.
      * simpl. f_equal. exact Heq.
      * constructor; assumption.
    + exists []. split; [reflexivity | constructor].
Qed.

Lemma trimStart_head (s : JsString) (c : N) (rest : JsString) :
  trimStart s = c :: rest -> is_js_space c = false.
Proof.
  induction s as [|d r IH]; simpl; [discriminate|].
  destruct (is_js_space d) eqn:E; [exact IH|].
  intros H. injection H as -> _. exact E.
Qed.

Lemma trimStart_keeps_last (l : JsString) (c : N) :
  is_js_space c = false ->
  exists l', trimStart (l ++ [c]) = l' ++ [c].
Proof.
  intros Hc. induction l as [|d r IH]; simpl.
  - rewrite Hc. exists []. reflexivity.
  - destruct (is_js_space d).
    + exact IH.
    + exists (d :: r). reflexivity.
Qed.

(** [s.trim()] is the part of [s] between its leading and its trailing
    white space. *)
Lemma trim_spec (s : JsString) :
  (exists pre post,
      s = pre ++ trim s ++ post /\ all_space pre /\ all_space post)
  /\ (forall c rest, trim s = c :: rest -> is_js_space c = false)
  /\ (forall init c, trim s = init ++ [c] -> is_js_space c = false).
Proof.
  unfold trim.
  destruct (trimStart_split s) as [pre [Hs Hpre]].
  destruct (trimStart_split (rev (trimStart s))) as [tail [Hr Htail]].
  set (t := trimStart s) in *.
  set (u := trimStart (rev t)) in *.
  split; [|split].
  - exists pre, (rev tail). split; [|split].
    + rewrite Hs at 1. f_equal.
      rewrite <- (rev_involutive t), Hr, rev_app_distr. reflexivity.
    + exact Hpre.
    + apply Forall_rev. exact Htail.
  - intros c rest Hhead.
    destruct t as [|d t'] eqn:Et.
    + simpl in u. subst u. discriminate Hhead.
    + assert (Hd : is_js_space d = false)
        by (apply (trimStart_head s Et)).
      destruct (@trimStart_keeps_last (rev t') d Hd) as [l' Hl'].
      simpl in u. subst u. rewrite Hl', rev_app_distr in Hhead.
      simpl in Hhead. injection Hhead as <- _. exact Hd.
  - intros init c Hlast.
    apply (f_equal (@rev N)) in Hlast.
    rewrite rev_involutive, rev_app_distr in Hlast. simpl in Hlast.
    apply (@trimStart_head (rev t) c (rev init) Hlast).
Qed.

(** ** Text made of JSON white space *)

Lemma json_ws_is_js_space (c : N) : is_json_ws c = true -> is_js_space c = true.
Proof.
  unfold is_json_ws. cbn [existsb]. intros H.
  repeat (apply orb_true_iff in H; destruct H as [H | H];
          [apply N.eqb_eq in H; subst c; reflexivity|]).
  discriminate H.
Qed.

Lemma blank_tokens (s : JsString) : blank s -> tokens_from 0 s = Some [].
Proof.
  induction 1 as [|c r Hc _ IH]; [reflexivity|].
  cbn [tokens_from]. rewrite Hc. exact IH.
Qed.

Lemma blank_not_json (s : JsString) : blank s -> JSON_parse s = None.
Proof.
  intros H. unfold JSON_parse, tokenize.
  rewrite (@blank_tokens s H). reflexivity.
Qed.

Lemma blank_trimStart (s : JsString) : blank s -> trimStart s = [].
Proof.
  induction 1 as [|c r Hc _ IH]; [reflexivity|].
  simpl. rewrite (@json_ws_is_js_space c Hc). exact IH.
Qed.

Lemma blank_trim (s : JsString) : blank s -> trim s = [].
Proof.
  intros H. unfold trim. rewrite (@blank_trimStart s H). reflexivity.
Qed.

(** ** The structured-error attempt *)

Lemma try_structured_error_none (stderr : JsString) :
  try_structured_error stderr = None ->
  JSON_parse stderr = None
  \/ JSON_parse stderr = Some VNull
  \/ (exists v m,
         JSON_parse stderr = Some v
         /\ get_member v (js "message") = Some (Some m)
         /\ truthy m = true
         /\ to_string_throws m = true).
Proof.
  unfold try_structured_error.
  destruct (JSON_parse stderr) as [v|]; [|auto].
  destruct (get_member v (js "message")) as [[m|]|] eqn:Hm.
  - cbn [message_or]. destruct (truthy m) eqn:Ht.
    + destruct (to_string_throws m) eqn:Hs; [|discriminate].
      intros _. right. right. exists v, m. auto.
    + discriminate.
  - discriminate.
  - destruct v; try discriminate Hm. auto.
Qed.

(** ** What the outcome tells about the process *)

(** X1. When [exec] reports an error the promise is rejected whatever the
    process wrote to its standard output, and with the same error: standard
    output is not read on that path, not even when it is JSON. *)
Theorem error_exit_ignores_stdout
  (exec : JsString -> ExecResult) (command stdout stderr : JsString)
  (error : ExecException) :
  exec command = mkExecResult (Some error) stdout stderr ->
  (exists err, executeSfCommand exec command = Rejected err)
  /\ (forall stdout',
        executeSfCommand exec command
        = classify (mkExecResult (Some error) stdout' stderr)).
Proof.
  intros Hexec. unfold executeSfCommand. rewrite Hexec.
  unfold classify. simpl. split.
  - destruct (try_structured_error stderr); eauto.
  - intros stdout'. reflexivity.
Qed.

Lemma error_exit_ignores_stdout_witness :
  exists err,
    executeSfCommand
      (fun command =>
         mkExecResult (Some (command_failed command (js "boom")))
                      (js "[1, 2]") (js "boom"))
      (js "sf org list") = Rejected err.
Proof.
  apply (error_exit_ignores_stdout
           (fun command =>
              mkExecResult (Some (command_failed command (js "boom")))
                           (js "[1, 2]") (js "boom"))
           (js "sf org list") (stdout := js "[1, 2]") (stderr := js "boom")
           (error := command_failed (js "sf org list") (js "boom")) eq_refl).
Defined.

(** X2. A resolved promise means that [exec] reported no error, that the
    process wrote to standard output or stayed silent on its error channel,
    and that the payload is the parsed standard output or, when that is not
    JSON, the object holding its trimmed text. *)
Theorem resolved_only_after_success
  (exec : JsString -> ExecResult) (command : JsString) (payload : value) :
  executeSfCommand exec command = Resolved payload ->
  cb_error (exec command) = None
  /\ (cb_stdout (exec command) <> [] \/ cb_stderr (exec command) = [])
  /\ (JSON_parse (cb_stdout (exec command)) = Some payload
      \/ (JSON_parse (cb_stdout (exec command)) = None
          /\ payload = message_object (trim (cb_stdout (exec command))))).
Proof.
  unfold executeSfCommand, classify.
  destruct (exec command) as [[e|] stdout stderr]; simpl.
  - destruct (try_structured_error stderr); discriminate.
  - destruct stderr as [|c r]; destruct stdout as [|d q]; simpl.
    + intros H. injection H as <-. repeat split; auto.
    + destruct (JSON_parse (d :: q)) as [v|]; intros H; injection H as <-;
        repeat split; auto; left; discriminate.
    + destruct (try_structured_error (c :: r)); discriminate.
    + destruct (JSON_parse (d :: q)) as [v|]; intros H; injection H as <-;
        repeat split; auto; left; discriminate.
Qed.

Lemma resolved_only_after_success_witness :
  cb_error (exec_done (js "sf org list")) = None
  /\ (cb_stdout (exec_done (js "sf org list")) <> []
      \/ cb_stderr (exec_done (js "sf org list")) = [])
  /\ (JSON_parse (cb_stdout (exec_done (js "sf org list")))
      = Some (message_object (js "Done."))
      \/ (JSON_parse (cb_stdout (exec_done (js "sf org list"))) = None
          /\ message_object (js "Done.")
             = message_object (trim (cb_stdout (exec_done (js "sf org list")))))).
Proof.
  apply (resolved_only_after_success exec_done (js "sf org list")
           (payload := message_object (js "Done."))).
  reflexivity.
Defined.

(** X3. The error object of [exec] reaches the caller only when [exec]
    reported it and the structured-error attempt threw: the error-channel
    text is not JSON, or is the JSON [null], or holds a truthy [message]
    that cannot be converted to a string. *)
Theorem exec_error_passed_on_only_unstructured
  (exec : JsString -> ExecResult) (command : JsString)
  (error : ExecException) :
  executeSfCommand exec command = Rejected (ExecError error) ->
  cb_error (exec command) = Some error
  /\ (JSON_parse (cb_stderr (exec command)) = None
      \/ JSON_parse (cb_stderr (exec command)) = Some VNull
      \/ (exists v m,
             JSON_parse (cb_stderr (exec command)) = Some v
             /\ get_member v (js "message") = Some (Some m)
             /\ truthy m = true
             /\ to_string_throws m = true)).
Proof.
  unfold executeSfCommand, classify.
  destruct (exec command) as [[e|] stdout stderr]; simpl.
  - destruct (try_structured_error stderr) as [err|] eqn:E.
    + destruct (SfCommandFacts.try_structured_error_new _ E) as [arg ->].
      discriminate.
    + intros H. injection H as <-. split; [reflexivity|].
      apply try_structured_error_none. exact E.
  - destruct (nonempty stderr && negb (nonempty stdout)).
    + destruct (try_structured_error stderr) as [err|] eqn:E.
      * destruct (SfCommandFacts.try_structured_error_new _ E) as [arg ->].
        discriminate.
      * discriminate.
    + destruct (JSON_parse stdout); discriminate.
Qed.

Lemma exec_error_passed_on_only_unstructured_witness :
  cb_error (exec_boom (js "sf org list"))
  = Some (command_failed (js "sf org list") (js "boom"))
  /\ (JSON_parse (cb_stderr (exec_boom (js "sf org list"))) = None
      \/ JSON_parse (cb_stderr (exec_boom (js "sf org list"))) = Some VNull
      \/ (exists v m,
             JSON_parse (cb_stderr (exec_boom (js "sf org list"))) = Some v
             /\ get_member v (js "message") = Some (Some m)
             /\ truthy m = true
             /\ to_string_throws m = true)).
Proof.
  apply (exec_error_passed_on_only_unstructured exec_boom (js "sf org list")
           (error := command_failed (js "sf org list") (js "boom"))).
  reflexivity.
Defined.

(** X4. After a successful exit, standard output that consists of JSON
    white space only (a lone line feed, say) resolves with
    [{message: ""}], and whatever the process wrote to its error channel
    is dropped. *)
Theorem blank_output_resolves_empty_message
  (exec : JsString -> ExecResult) (command stdout stderr : JsString) :
  exec command = mkExecResult None stdout stderr ->
  stdout <> [] ->
  blank stdout ->
  executeSfCommand exec command = Resolved (message_object []).
Proof.
  intros Hexec Hne Hblank. unfold executeSfCommand, classify.
  rewrite Hexec. simpl.
  destruct stdout as [|c r]; [congruence|].
  rewrite andb_false_r.
  rewrite (@blank_not_json (c :: r) Hblank), (@blank_trim (c :: r) Hblank).
  reflexivity.
Qed.

Lemma blank_output_resolves_empty_message_witness :
  executeSfCommand (fun _ => mkExecResult None [10%N] (js "deprecated flag"))
                   (js "sf org list")
  = Resolved (message_object []).
Proof.
  apply (blank_output_resolves_empty_message
           (fun _ => mkExecResult None [10%N] (js "deprecated flag"))
           (js "sf org list") (stdout := [10%N])
           (stderr := js "deprecated flag") eq_refl).
  - discriminate.
  - repeat constructor.
Defined.

(** X5. When standard output is not JSON, the message the promise resolves
    with is standard output without its leading and trailing white space:
    what was cut off on either side is white space only, and the message
    neither starts nor ends with a white space character. *)
Theorem plain_text_message_is_trimmed
  (exec : JsString -> ExecResult) (command stdout stderr : JsString) :
  exec command = mkExecResult None stdout stderr ->
  stdout <> [] ->
  JSON_parse stdout = None ->
  exists text,
    executeSfCommand exec command = Resolved (message_object text)
    /\ (exists pre post,
           stdout = pre ++ text ++ post /\ all_space pre /\ all_space post)
    /\ (forall c rest, text = c :: rest -> is_js_space c = false)
    /\ (forall init c, text = init ++ [c] -> is_js_space c = false).
Proof.
  intros Hexec Hne Hparse. exists (trim stdout). split.
  - unfold executeSfCommand, classify. rewrite Hexec. simpl.
    destruct stdout as [|c r]; [congruence|].
    rewrite andb_false_r, Hparse. reflexivity.
  - apply trim_spec.
Qed.

Lemma plain_text_message_is_trimmed_witness :
  exists text,
    executeSfCommand (fun _ => mkExecResult None (js "  Done. ") [])
                     (js "sf org list")
    = Resolved (message_object text)
    /\ (exists pre post,
           js "  Done. " = pre ++ text ++ post
           /\ all_space pre /\ all_space post)
    /\ (forall c rest, text = c :: rest -> is_js_space c = false)
    /\ (forall init c, text = init ++ [c] -> is_js_space c = false).
Proof.
  apply (plain_text_message_is_trimmed
           (fun _ => mkExecResult None (js "  Done. ") [])
           (js "sf org list") (stdout := js "  Done. ") (stderr := [])
           eq_refl).
  - discriminate.
  - reflexivity.
Defined.

End SfCommandMore.

(* ================================================================== *)
(** * Further properties of the manifest tools *)
(* ================================================================== *)

Module ManifestMore.
Import Js Manifest ManifestSpec ManifestFacts.

(** ** Property tables and slices *)

Lemma set_assoc_twice {V : Type} (k : JsString) (v1 v2 : V) l :
  set_assoc k v2 (set_assoc k v1 l) = set_assoc k v2 l.
Proof.
  induction l as [|[k' v'] l IH]; simpl.
  - rewrite str_eqb_refl. reflexivity.
  - destruct (str_eqb k k') eqn:E; simpl; rewrite E; [reflexivity|].
    f_equal. exact IH.
Qed.

Lemma set_assoc_keys {V : Type} (k : JsString) (v v0 : V) l :
  assoc k l = Some v0 -> map fst (set_assoc k v l) = map fst l.
Proof.
  induction l as [|[k' v'] l IH]; simpl; [discriminate|].
  destruct (str_eqb k k') eqn:E; simpl; [reflexivity|].
  intros H. f_equal. apply IH. exact H.
Qed.

Lemma slice0_nonneg {A : Type} (l : list A) (max : Z) :
  (0 <= max)%Z -> slice0 l max = firstn (Z.to_nat max) l.
Proof.
  intros Hle. unfold slice0.
  destruct (max <? 0)%Z eqn:E; [apply Z.ltb_lt in E; lia|].
  destruct (Z.min_spec max (Z.of_nat (length l))) as [[Hlt ->] | [Hge ->]].
  - reflexivity.
  - rewrite Nat2Z.id, firstn_all. symmetry. apply firstn_all2. lia.
Qed.

Lemma slice0_twice {A : Type} (l : list A) (m1 m2 : Z) :
  (0 <= m1)%Z -> (0 <= m2)%Z ->
  slice0 (slice0 l m1) m2 = slice0 l (Z.min m1 m2).
Proof.
  intros H1 H2.
  rewrite !slice0_nonneg by lia.
  rewrite firstn_firstn, Z2Nat.inj_min, Nat.min_comm. reflexivity.
Qed.

Lemma filter_twice {A : Type} (p q : A -> bool) (l : list A) :
  filter p (filter q l) = filter (fun x => q x && p x) l.
Proof.
  induction l as [|x l IH]; simpl; [reflexivity|].
  destruct (q x); simpl; [destruct (p x)|]; rewrite IH; reflexivity.
Qed.

Lemma filter_all {A : Type} (p : A -> bool) (l : list A) :
  (forall x, In x l -> p x = true) -> filter p l = l.
Proof.
  induction l as [|x l IH]; simpl; intros H; [reflexivity|].
  rewrite (H x (or_introl eq_refl)). f_equal. apply IH.
  intros y Hy. apply H. right. exact Hy.
Qed.

(** ** One entry, limited twice *)

Lemma with_members_twice a c ch (x y : list node) :
  with_members (with_members (Elem a c ch) x) y = with_members (Elem a c ch) y.
Proof. simpl. rewrite set_assoc_twice. reflexivity. Qed.

Lemma limit_members_twice (m1 m2 : Z) (type : node) :
  (0 <= m1)%Z -> (0 <= m2)%Z ->
  limit_members m2 (limit_members m1 type) = limit_members (Z.min m1 m2) type.
Proof.
  intros H1 H2. unfold limit_members at 2 3.
  destruct (members type) as [ms|] eqn:Hm.
  - destruct (members_Some_Elem _ Hm) as (a & c & ch & ->).
    destruct (m1 <? Z.of_nat (length ms))%Z eqn:E1.
    + apply Z.ltb_lt in E1.
      unfold limit_members. rewrite members_with_members.
      destruct (slice0_prefix ms (conj H1 E1)) as [_ Hlen]. rewrite Hlen.
      rewrite Z2Nat.id by lia.
      destruct (m2 <? m1)%Z eqn:E2.
      * apply Z.ltb_lt in E2.
        rewrite with_members_twice, slice0_twice by lia.
        rewrite Z.min_r by lia.
        destruct (m2 <? Z.of_nat (length ms))%Z eqn:E3;
          [reflexivity | apply Z.ltb_ge in E3; lia].
      * apply Z.ltb_ge in E2. rewrite Z.min_l by lia.
        destruct (m1 <? Z.of_nat (length ms))%Z eqn:E3;
          [reflexivity | apply Z.ltb_ge in E3; lia].
    + apply Z.ltb_ge in E1. unfold limit_members. rewrite Hm.
      destruct (m2 <? Z.of_nat (length ms))%Z eqn:E2.
      * apply Z.ltb_lt in E2. rewrite Z.min_r by lia.
        destruct (m2 <? Z.of_nat (length ms))%Z eqn:E3;
          [reflexivity | apply Z.ltb_ge in E3; lia].
      * apply Z.ltb_ge in E2.
        destruct (Z.min m1 m2 <? Z.of_nat (length ms))%Z eqn:E3;
          [apply Z.ltb_lt in E3; lia | reflexivity].
  - unfold limit_members. rewrite Hm. reflexivity.
Qed.

Lemma limit_members_bound (max : Z) (type : node) :
  (0 <= max)%Z ->
  (Z.of_nat (length (memberList (limit_members max type))) <= max)%Z.
Proof.
  intros Hle. destruct (exceeds max type) eqn:E.
  - rewrite (limit_members_exceeding _ _ E).
    rewrite exceeds_nonneg in E by exact Hle. apply Z.ltb_lt in E.
    destruct (slice0_prefix (memberList type) (conj Hle E)) as [_ ->].
    rewrite Z2Nat.id; lia.
  - rewrite (limit_members_within _ _ E).
    rewrite exceeds_nonneg in E by exact Hle. apply Z.ltb_ge. exact E.
Qed.

(** ** Requested names *)

Lemma existsb_str_In (s : JsString) (names : list JsString) :
  existsb (str_eqb s) names = true <-> In s names.
Proof.
  rewrite existsb_exists. split.
  - intros [x [Hin Heq]]. apply str_eqb_eq in Heq. subst x. exact Hin.
  - intros Hin. exists s. split; [exact Hin | apply str_eqb_refl].
Qed.

Lemma includes_ext (n1 n2 : list JsString) (x : option node) :
  (forall s, In s n1 <-> In s n2) -> includes n1 x = includes n2 x.
Proof.
  intros Hset. destruct x as [[s | a c ch]|]; simpl; try reflexivity.
  apply eq_true_iff_eq. rewrite !existsb_str_In. apply Hset.
Qed.

Lemma includes_both (n1 n2 : list JsString) (x : option node) :
  includes (filter (fun s => existsb (str_eqb s) n1) n2) x
  = includes n1 x && includes n2 x.
Proof.
  destruct x as [[s | a c ch]|]; simpl; try reflexivity.
  apply eq_true_iff_eq.
  rewrite andb_true_iff, !existsb_str_In, filter_In, existsb_str_In. tauto.
Qed.

Lemma filteredTypes_ext (n1 n2 : list JsString) (max : Z) (tys : list node) :
  (forall s, In s n1 <-> In s n2) ->
  filteredTypes n1 max tys = filteredTypes n2 max tys.
Proof.
  intros Hset. unfold filteredTypes. f_equal.
  apply filter_ext. intros type. apply includes_ext. exact Hset.
Qed.

Lemma filter_map_limit (names : list JsString) (max : Z) (tys : list node) :
  filter (fun type => includes names (typeName type))
         (map (limit_members max) tys)
  = map (limit_members max)
        (filter (fun type => includes names (typeName type)) tys).
Proof.
  induction tys as [|type tys IH]; simpl; [reflexivity|].
  rewrite limit_members_name.
  destruct (includes names (typeName type)); simpl; rewrite IH; reflexivity.
Qed.

Lemma filteredTypes_compose (n1 n2 : list JsString) (m1 m2 : Z)
  (tys : list node) :
  (0 <= m1)%Z -> (0 <= m2)%Z ->
  filteredTypes n2 m2 (filteredTypes n1 m1 tys)
  = filteredTypes (filter (fun s => existsb (str_eqb s) n1) n2)
                  (Z.min m1 m2) tys.
Proof.
  intros H1 H2. unfold filteredTypes.
  rewrite filter_map_limit, map_map, filter_twice.
  rewrite (map_ext _ (limit_members (Z.min m1 m2)))
    by (intros type; apply limit_members_twice; assumption).
  f_equal. apply filter_ext. intros type. symmetry. apply includes_both.
Qed.

Lemma filteredTypes_all (names : list JsString) (max : Z) (tys : list node) :
  (forall type, In type tys -> includes names (typeName type) = true) ->
  filteredTypes names max tys = map (limit_members max) tys.
Proof.
  intros Hall. unfold filteredTypes. rewrite filter_all; auto.
Qed.

Lemma fold_left_count_members (tys : list node) (start : nat) :
  fold_left count_members tys start
  = start + list_sum (map (fun type => length (memberList type)) tys).
Proof.
  revert start. induction tys as [|type tys IH]; intros start; simpl.
  - lia.
  - rewrite IH. unfold count_members, memberList.
    destruct (members type); simpl; lia.
Qed.

Section Reports.

Variable readFile : JsString -> option JsString.
Variable parseStringPromise : JsString -> parsed.

Lemma filterManifest_report (params : FilterManifestParams)
  (text : JsString) (tys : list node) :
  readFile (manifestPath params) = Some text ->
  document_types (parseStringPromise text) = Some tys ->
  exists report,
    filterManifest readFile parseStringPromise params = Returned report
    /\ types (written report)
       = filteredTypes (metadataTypes params)
           (match maxItemsPerType params with Some m => m | None => 500%Z end)
           tys
    /\ filteredTotal report = fold_left count_members (types (written report)) 0
    /\ xmlns (written report) = metadata_ns.
Proof.
  intros Hread Hdoc. unfold filterManifest. rewrite Hread.
  destruct (parseStringPromise text) as [m | | rootName root];
    simpl in Hdoc; try discriminate.
  rewrite Hdoc. simpl. eexists. repeat split.
Qed.

Lemma getManifestSummary_throws (path : JsString) :
  (forall text tys,
      readFile path = Some text -> ~ has_types (parseStringPromise text) tys) ->
  exists m, getManifestSummary readFile parseStringPromise path = Threw m.
Proof.
  intros Hnone. unfold getManifestSummary.
  destruct (readFile path) as [text|] eqn:Hread; [|eexists; reflexivity].
  destruct (document_types (parseStringPromise text)) as [tys|] eqn:Hdoc.
  - apply document_types_has_types in Hdoc.
    destruct (Hnone text tys eq_refl Hdoc).
  - destruct (parseStringPromise text) as [m | | rootName root];
      try (eexists; reflexivity).
    simpl in Hdoc. rewrite Hdoc. eexists. reflexivity.
Qed.

Lemma filterManifest_throws (params : FilterManifestParams) :
  (forall text tys,
      readFile (manifestPath params) = Some text ->
      ~ has_types (parseStringPromise text) tys) ->
  exists m, filterManifest readFile parseStringPromise params = Threw m.
Proof.
  intros Hnone. unfold filterManifest.
  destruct (readFile (manifestPath params)) as [text|] eqn:Hread;
    [|eexists; reflexivity].
  destruct (document_types (parseStringPromise text)) as [tys|] eqn:Hdoc.
  - apply document_types_has_types in Hdoc.
    destruct (Hnone text tys eq_refl Hdoc).
  - destruct (parseStringPromise text) as [m | | rootName root];
      try (eexists; reflexivity).
    simpl in Hdoc. rewrite Hdoc. eexists. reflexivity.
Qed.

End Reports.

(** ** Which manifests the tools accept *)

(** X6. Either tool returns only for a manifest file that exists and whose
    text parses to a [Package] root with a [types] collection.  With no
    file at the path both throw, naming the path, and the parser is not
    consulted. *)
Theorem tools_return_only_on_typed_manifest
  (readFile : JsString -> option JsString) (parse : JsString -> parsed)
  (params : FilterManifestParams) :
  (((exists report,
        getManifestSummary readFile parse (manifestPath params)
        = Returned report)
    \/ (exists report, filterManifest readFile parse params = Returned report))
   -> exists text tys,
        readFile (manifestPath params) = Some text
        /\ has_types (parse text) tys)
  /\ (readFile (manifestPath params) = None ->
      forall parse',
        getManifestSummary readFile parse' (manifestPath params)
        = Threw (js "Failed to get manifest summary: Manifest file not found at: "
                 ++ manifestPath params)
        /\ filterManifest readFile parse' params
           = Threw (js "Failed to filter manifest: Manifest file not found at: "
                    ++ manifestPath params)).
Proof.
  split.
  - assert (Hdec : (exists text tys,
                       readFile (manifestPath params) = Some text
                       /\ has_types (parse text) tys)
                   \/ (forall text tys,
                          readFile (manifestPath params) = Some text ->
                          ~ has_types (parse text) tys)).
    { destruct (readFile (manifestPath params)) as [text|];
        [|right; intros; discriminate].
      destruct (document_types (parse text)) as [tys|] eqn:E.
      - left. exists text, tys. split; [reflexivity|].
        apply document_types_has_types. exact E.
      - right. intros text' tys Heq Hhas. injection Heq as <-.
        apply document_types_has_types in Hhas. congruence. }
    destruct Hdec as [Hyes | Hno]; [intros _; exact Hyes|].
    intros [[report Hret] | [report Hret]].
    + destruct (getManifestSummary_throws readFile parse _ Hno) as [m Hm].
      congruence.
    + destruct (filterManifest_throws readFile parse params Hno) as [m Hm].
      congruence.
  - intros Hmissing parse'. unfold getManifestSummary, filterManifest.
    rewrite Hmissing. split; reflexivity.
Qed.

(** ** The quota *)

(** X7. With a limit that is not negative, no entry of the package written
    by [filterManifest] has more members than the limit, the total the tool
    reports is the number of members written, and that total is at most the
    limit times the number of entries written. *)
Theorem filter_respects_quota
  (readFile : JsString -> option JsString) (parse : JsString -> parsed)
  (params : FilterManifestParams) (text : JsString) (tys : list node)
  (max : Z) :
  readFile (manifestPath params) = Some text ->
  document_types (parse text) = Some tys ->
  match maxItemsPerType params with Some m => m | None => 500%Z end = max ->
  (0 <= max)%Z ->
  exists report,
    filterManifest readFile parse params = Returned report
    /\ Forall (fun type => (Z.of_nat (length (memberList type)) <= max)%Z)
              (types (written report))
    /\ filteredTotal report
       = list_sum (map (fun type => length (memberList type))
                       (types (written report)))
    /\ (Z.of_nat (filteredTotal report)
        <= max * Z.of_nat (length (types (written report))))%Z.
Proof.
  intros Hread Hdoc Hmax Hle.
  destruct (filterManifest_report readFile parse params Hread Hdoc)
    as [report (Hret & Htypes & Htotal & _)].
  exists report. split; [exact Hret|].
  rewrite Htotal, fold_left_count_members, Htypes, Hmax. simpl.
  assert (Hall : Forall (fun type =>
                           (Z.of_nat (length (memberList type)) <= max)%Z)
                        (filteredTypes (metadataTypes params) max tys)).
  { unfold filteredTypes. apply Forall_forall. intros type' Hin.
    apply in_map_iff in Hin. destruct Hin as [type [<- _]].
    apply limit_members_bound. exact Hle. }
  split; [exact Hall|]. split; [reflexivity|].
  induction Hall as [|type l Hhead _ IH]; simpl; [lia|].
  rewrite Nat2Z.inj_add. lia.
Qed.

Lemma filter_respects_quota_witness :
  exists report,
    filterManifest read_any (parse_to (package five_types))
                   (params_for ["ApexClass"%string; "ApexTrigger"%string]
                               (Some 2%Z))
    = Returned report
    /\ Forall (fun type => (Z.of_nat (length (memberList type)) <= 2)%Z)
              (types (written report))
    /\ filteredTotal report
       = list_sum (map (fun type => length (memberList type))
                       (types (written report)))
    /\ (Z.of_nat (filteredTotal report)
        <= 2 * Z.of_nat (length (types (written report))))%Z.
Proof.
  apply (filter_respects_quota read_any (parse_to (package five_types))
           (params_for ["ApexClass"%string; "ApexTrigger"%string] (Some 2%Z))
           (text := js "<Package/>") (tys := five_types) (max := 2%Z)).
  - reflexivity.
  - reflexivity.
  - reflexivity.
  - lia.
Defined.

(** ** Filtering what was filtered *)

(** X8. Filtering the entries that a first filter kept gives what a single
    filter gives with the names common to both requests and the smaller of
    the two limits, when neither limit is negative. *)
Theorem filter_composes (n1 n2 : list JsString) (m1 m2 : Z)
  (tys : list node) :
  (0 <= m1)%Z -> (0 <= m2)%Z ->
  filteredTypes n2 m2 (filteredTypes n1 m1 tys)
  = filteredTypes (filter (fun s => existsb (str_eqb s) n1) n2)
                  (Z.min m1 m2) tys.
Proof. apply filteredTypes_compose. Qed.

Lemma filter_composes_witness :
  filteredTypes [js "ApexClass"] 2
    (filteredTypes [js "ApexClass"; js "CustomObject"] 3 five_types)
  = filteredTypes
      (filter (fun s => existsb (str_eqb s) [js "ApexClass"; js "CustomObject"])
              [js "ApexClass"])
      (Z.min 3 2) five_types.
Proof.
  apply (filter_composes [js "ApexClass"; js "CustomObject"] [js "ApexClass"]
           (m1 := 3%Z) (m2 := 2%Z) five_types); lia.
Defined.

(** X9. Filtering is idempotent when the limit is not negative: applying
    the same names and limit to the entries already kept changes nothing. *)
Theorem filter_idempotent (names : list JsString) (max : Z) (tys : list node) :
  (0 <= max)%Z ->
  filteredTypes names max (filteredTypes names max tys)
  = filteredTypes names max tys.
Proof.
  intros Hle. rewrite filteredTypes_compose by exact Hle.
  rewrite Z.min_id. apply filteredTypes_ext.
  intros s. rewrite filter_In, existsb_str_In. tauto.
Qed.

Lemma filter_idempotent_witness :
  filteredTypes [js "ApexClass"] 3 (filteredTypes [js "ApexClass"] 3 five_types)
  = filteredTypes [js "ApexClass"] 3 five_types.
Proof.
  apply (filter_idempotent [js "ApexClass"] (max := 3%Z) five_types). lia.
Defined.

(** X10. The requested names act as a set: two requests with the same
    names, in any order and with any repetitions, keep the same entries. *)
Theorem filter_uses_names_as_set (n1 n2 : list JsString) (max : Z)
  (tys : list node) :
  (forall s, In s n1 <-> In s n2) ->
  filteredTypes n1 max tys = filteredTypes n2 max tys.
Proof. apply filteredTypes_ext. Qed.

Lemma filter_uses_names_as_set_witness :
  filteredTypes [js "Flow"; js "ApexClass"; js "Flow"] 2 five_types
  = filteredTypes [js "ApexClass"; js "Flow"] 2 five_types.
Proof.
  apply (filter_uses_names_as_set
           [js "Flow"; js "ApexClass"; js "Flow"] [js "ApexClass"; js "Flow"]
           2 five_types).
  intros s. simpl. tauto.
Defined.

(** X11. When every entry of the manifest bears a requested name,
    [filterManifest] keeps the entries that auto-limit produces for the
    same limit; if moreover no entry has more members than the limit, it
    keeps the entries as they are. *)
Theorem filter_all_requested (names : list JsString) (max : Z)
  (tys : list node) :
  (forall type, In type tys -> includes names (typeName type) = true) ->
  filteredTypes names max tys = fst (limit_all max tys)
  /\ (existsb (exceeds max) tys = false -> filteredTypes names max tys = tys).
Proof.
  intros Hall. rewrite (filteredTypes_all names max tys Hall), limit_all_map.
  split; [reflexivity | apply none_exceeds].
Qed.

Lemma filter_all_requested_witness :
  filteredTypes [js "ApexClass"; js "CustomObject"] 3 [apex5; account1]
  = fst (limit_all 3 [apex5; account1]).
Proof.
  apply (filter_all_requested [js "ApexClass"; js "CustomObject"] 3
           [apex5; account1]).
  intros type [<- | [<- | []]]; reflexivity.
Defined.

(** X12. [filterManifest] keeps type names unique: when no two entries of
    the source share a name, no two entries of the package written do. *)
Theorem filter_keeps_names_unique
  (readFile : JsString -> option JsString) (parse : JsString -> parsed)
  (params : FilterManifestParams) (text : JsString) (tys : list node) :
  readFile (manifestPath params) = Some text ->
  document_types (parse text) = Some tys ->
  NoDup (map typeName tys) ->
  exists report,
    filterManifest readFile parse params = Returned report
    /\ NoDup (map typeName (types (written report))).
Proof.
  intros Hread Hdoc Hnodup.
  destruct (filterManifest_returns readFile parse params Hread Hdoc)
    as [report [Hret Htypes]].
  exists report. split; [exact Hret|].
  rewrite Htypes, filteredTypes_names. apply NoDup_filter. exact Hnodup.
Qed.

Lemma filter_keeps_names_unique_witness :
  exists report,
    filterManifest read_any (parse_to (package five_types))
                   (params_for ["ApexClass"%string; "Flow"%string] None)
    = Returned report
    /\ NoDup (map typeName (types (written report))).
Proof.
  apply (filter_keeps_names_unique read_any (parse_to (package five_types))
           (params_for ["ApexClass"%string; "Flow"%string] None)
           (text := js "<Package/>") (tys := five_types) eq_refl eq_refl).
  repeat (constructor; [simpl; intuition discriminate|]). constructor.
Defined.

(** ** Auto-limit, run again *)

Lemma limited_never_exceeds (max : Z) (tys : list node) :
  (0 <= max)%Z -> existsb (exceeds max) (map (limit_members max) tys) = false.
Proof.
  intros Hle. induction tys as [|type tys IH]; simpl; [reflexivity|].
  rewrite IH, orb_false_r, exceeds_nonneg by exact Hle.
  apply Z.ltb_ge. apply limit_members_bound. exact Hle.
Qed.

(** X13. The limiting step of [filterLargeManifest] settles after one
    pass: for a limit that is not negative, applied to the entries it
    produced it changes none of them and leaves [modified] false. *)
Theorem auto_limit_step_settles (max : Z) (tys : list node) :
  (0 <= max)%Z ->
  limit_all max (fst (limit_all max tys)) = (fst (limit_all max tys), false).
Proof.
  intros Hle. rewrite !limit_all_map. cbn [fst].
  rewrite (limited_never_exceeds tys Hle), map_map.
  f_equal. apply map_ext. intros type.
  rewrite limit_members_twice by exact Hle. rewrite Z.min_id. reflexivity.
Qed.

Lemma auto_limit_step_settles_witness :
  limit_all 3 (fst (limit_all 3 [apex5; account1]))
  = (fst (limit_all 3 [apex5; account1]), false).
Proof.
  apply (@auto_limit_step_settles 3%Z [apex5; account1]). lia.
Defined.

(** X14. When [filterLargeManifest] rewrites the manifest, it writes the
    parsed object with its [types] replaced and everything else as it was
    read: the root name, the attributes and character data of the root,
    the names and order of its children, and every child other than
    [types]. *)
Theorem auto_limit_keeps_rest_of_package
  (readFile : JsString -> option JsString) (parse : JsString -> parsed)
  (path text : JsString) (max : Z) (rewritten : parsed) :
  readFile path = Some text ->
  filterLargeManifest readFile parse path max = Returned (Some rewritten) ->
  exists rootName a c ch ch',
    parse text = ParsedRoot rootName (Elem a c ch)
    /\ rewritten = ParsedRoot rootName (Elem a c ch')
    /\ map fst ch' = map fst ch
    /\ (forall k, str_eqb k (js "types") = false -> assoc k ch' = assoc k ch).
Proof.
  intros Hread. unfold filterLargeManifest. rewrite Hread.
  destruct (parse text) as [m | | rootName root]; try discriminate.
  unfold Package. destruct (str_eqb rootName (js "Package")); [|discriminate].
  destruct root as [s | a c ch]; [discriminate|].
  cbn [checked_types].
  destruct (assoc (js "types") ch) as [tys|] eqn:Hty; [|discriminate].
  destruct (limit_all max tys) as [limited modified].
  destruct modified; [|discriminate].
  intros H. injection H as <-.
  exists rootName, a, c, ch, (set_assoc (js "types") limited ch).
  repeat split.
  - apply (set_assoc_keys _ _ _ Hty).
  - intros k Hk. apply assoc_set_assoc_other. exact Hk.
Qed.

Lemma auto_limit_keeps_rest_of_package_witness :
  exists rootName a c ch ch',
    parse_to (package [apex5]) (js "<Package/>")
    = ParsedRoot rootName (Elem a c ch)
    /\ package [apex3] = ParsedRoot rootName (Elem a c ch')
    /\ map fst ch' = map fst ch
    /\ (forall k, str_eqb k (js "types") = false -> assoc k ch' = assoc k ch).
Proof.
  apply (@auto_limit_keeps_rest_of_package read_any
           (parse_to (package [apex5]))
           (js "manifest/package.xml") (js "<Package/>") 3%Z
           (package [apex3])).
  - reflexivity.
  - reflexivity.
Defined.

(** X15. [filterLargeManifest] does not validate: on a parsed manifest
    without a [Package] root or without a [types] collection it returns
    normally and rewrites nothing, where [filterManifest] throws. *)
Theorem auto_limit_ignores_missing_structure
  (readFile : JsString -> option JsString) (parse : JsString -> parsed)
  (params : FilterManifestParams) (text rootName : JsString) (root : node)
  (max : Z) :
  readFile (manifestPath params) = Some text ->
  parse text = ParsedRoot rootName root ->
  (forall tys, ~ has_types (parse text) tys) ->
  filterLargeManifest readFile parse (manifestPath params) max = Returned None
  /\ exists m, filterManifest readFile parse params = Threw m.
Proof.
  intros Hread Hparse Hnone. split.
  - apply no_types_no_document in Hnone. rewrite Hparse in Hnone.
    simpl in Hnone. unfold filterLargeManifest. rewrite Hread, Hparse, Hnone.
    destruct (Package rootName root) as [[?|? ? ?]|]; reflexivity.
  - apply filterManifest_throws. intros text' tys Heq.
    rewrite Hread in Heq. injection Heq as <-. apply Hnone.
Qed.

Lemma auto_limit_ignores_missing_structure_witness :
  filterLargeManifest read_any (parse_to package_without_types)
                      (js "manifest/package.xml") 3 = Returned None
  /\ exists m,
       filterManifest read_any (parse_to package_without_types)
                      (params_for ["ApexClass"%string] None) = Threw m.
Proof.
  apply (@auto_limit_ignores_missing_structure read_any
           (parse_to package_without_types)
           (params_for ["ApexClass"%string] None)
           (js "<Package/>") (js "Package")
           (Elem [(js "xmlns", metadata_ns)] None
                 [(js "version", texts ["58.0"%string])])
           3%Z eq_refl eq_refl).
  intros tys H. apply document_types_has_types in H. discriminate H.
Defined.

(** ** Size of the summary *)

Lemma summary_bounds (tys : list node) :
  list_sum (map (fun item => length (sampleMembers item))
                (map summarize_type tys))
  <= 3 * length (map summarize_type tys)
  /\ list_sum (map (fun item => length (sampleMembers item))
                   (map summarize_type tys))
     <= 0 + list_sum (map memberCount (map summarize_type tys))
  /\ Forall (fun item =>
               memberCount item
               <= 0 + list_sum (map memberCount (map summarize_type tys)))
            (map summarize_type tys).
Proof.
  induction tys as [|type tys IH].
  - simpl. split; [lia|]. split; [lia | constructor].
  - destruct IH as (H3 & Hsum & Hall).
    destruct (summarize_type_spec type) as (_ & Hcount & Hsample).
    assert (Hlen : length (sampleMembers (summarize_type type)) <= 3
                   /\ length (sampleMembers (summarize_type type))
                      <= memberCount (summarize_type type)).
    { rewrite Hsample, Hcount, length_firstn. lia. }
    assert (Hcons : forall a l, list_sum (a :: l) = a + list_sum l)
      by reflexivity.
    cbn [map length]. rewrite !Hcons. split; [lia|]. split; [lia|].
    constructor; [lia|].
    eapply Forall_impl; [|exact Hall]. cbv beta. intros item Hitem. lia.
Qed.

(** X16. The summary is bounded: it shows at most three member names per
    type, never more names than the manifest has members, and no type
    counts more members than the reported total. *)
Theorem summary_is_bounded
  (readFile : JsString -> option JsString) (parse : JsString -> parsed)
  (path : JsString) (report : SummaryReport) :
  getManifestSummary readFile parse path = Returned report ->
  list_sum (map (fun item => length (sampleMembers item)) (summary report))
  <= 3 * totalTypes report
  /\ list_sum (map (fun item => length (sampleMembers item)) (summary report))
     <= totalItems report
  /\ Forall (fun item => memberCount item <= totalItems report)
            (summary report).
Proof.
  intros Hret.
  destruct (readFile path) as [text|] eqn:Hread;
    [|unfold getManifestSummary in Hret; rewrite Hread in Hret; discriminate].
  destruct (document_types (parse text)) as [tys|] eqn:Hdoc.
  - rewrite (getManifestSummary_returns readFile parse path Hread Hdoc) in Hret.
    injection Hret as <-. cbn [summary totalTypes totalItems].
    rewrite fold_left_memberCount. apply summary_bounds.
  - exfalso. revert Hret. unfold getManifestSummary. rewrite Hread.
    destruct (parse text) as [m | | rootName root]; try discriminate.
    simpl in Hdoc. rewrite Hdoc. discriminate.
Qed.

Lemma summary_is_bounded_witness :
  list_sum (map (fun item => length (sampleMembers item))
                (map summarize_type five_types))
  <= 3 * 5
  /\ list_sum (map (fun item => length (sampleMembers item))
                   (map summarize_type five_types))
     <= 9
  /\ Forall (fun item => memberCount item <= 9) (map summarize_type five_types).
Proof.
  apply (@summary_is_bounded read_any (parse_to (package five_types))
           (js "manifest/package.xml")
           (mkSummaryReport (map summarize_type five_types) 5 9)).
  reflexivity.
Defined.

End ManifestMore.

(* ================================================================== *)
(** * Properties of the other manifest workflows and of view_apex_class *)
(* ================================================================== *)

Module WorkflowFacts.
Import Js Json SfCommand Manifest ManifestSpec ManifestFacts ManifestMore.
Import ManifestWorkflows ApexTools.

(** ** The first ApexClass entry *)

Lemma limit_first_apex_spec (max : Z) (tys : list node) :
  (Forall (fun type => is_apex type = false) tys
   /\ limit_first_apex max tys = tys)
  \/ exists pre type post,
       tys = pre ++ type :: post
       /\ Forall (fun type => is_apex type = false) pre
       /\ is_apex type = true
       /\ limit_first_apex max tys = pre ++ limit_members max type :: post.
Proof.
  induction tys as [|type tys IH]; simpl.
  - left. split; [constructor | reflexivity].
  - destruct (is_apex type) eqn:E.
    + right. exists [], type, tys.
      split; [reflexivity|]. split; [constructor|]. split; [exact E|].
      simpl. unfold limit_members.
      destruct (members type) as [ms|]; [|reflexivity].
      destruct (max <? Z.of_nat (length ms))%Z; reflexivity.
    + destruct IH as [[Hall Heq] | (pre & t & post & Hsplit & Hpre & Ht & Heq)].
      * left. split; [constructor; assumption | rewrite Heq; reflexivity].
      * right. exists (type :: pre), t, post.
        split; [simpl; rewrite Hsplit; reflexivity|].
        split; [constructor; assumption|].
        split; [exact Ht|]. simpl. rewrite Heq. reflexivity.
Qed.

Lemma limit_apex_classes_types (rootName : JsString) (root : node) (max : Z)
  (tys : list node) :
  document_types (ParsedRoot rootName root) = Some tys ->
  document_types (limit_apex_classes rootName root max)
  = Some (limit_first_apex max tys).
Proof.
  cbn [document_types]. unfold limit_apex_classes, Package.
  destruct (str_eqb rootName (js "Package")) eqn:E; [|discriminate].
  destruct root as [s | a c ch]; cbn [checked_types]; [discriminate|].
  intros ->. cbn [document_types]. unfold Package. rewrite E.
  cbn [checked_types]. apply assoc_set_assoc_same.
Qed.

Lemma limit_apex_classes_untyped (rootName : JsString) (root : node) (max : Z) :
  document_types (ParsedRoot rootName root) = None ->
  limit_apex_classes rootName root max = ParsedRoot rootName root.
Proof.
  cbn [document_types]. unfold limit_apex_classes. intros ->.
  destruct (Package rootName root) as [[?|? ? ?]|]; reflexivity.
Qed.

(** ** retrieveApexClasses *)

Section Environment.

Variable dirExists : JsString -> bool.
Variable mkdirSync : JsString -> option JsString.
Variable execSync : JsString -> option JsString.
Variable readFile : JsString -> option JsString.
Variable parse : JsString -> parsed.
Variable join : JsString -> JsString -> JsString.

(** X17. Once the manifest is generated and read, [retrieveApexClasses]
    writes a manifest with the same entries in the same order, in which
    only the first entry named ApexClass is limited (as the filter limits
    an entry); entries before it, entries after it, a second ApexClass
    entry included, are written as they were read.  Without any ApexClass
    entry nothing changes. *)
Theorem retrieve_apex_limits_first_entry_only
  (params : RetrieveApexClassesParams) (text : JsString) (tys : list node) :
  ensure_dir dirExists mkdirSync
             (or_default (apexOutputDir params) (js "./manifest")) = None ->
  execSync (apex_generate_command
              (or_default (apexOutputDir params) (js "./manifest"))
              (apexOrgAlias params)) = None ->
  readFile (join (or_default (apexOutputDir params) (js "./manifest"))
                 (js "package.xml")) = Some text ->
  document_types (parse text) = Some tys ->
  exists written tys',
    fst (retrieveApexClasses dirExists mkdirSync execSync readFile parse join
                             params)
    = Some (join (or_default (apexOutputDir params) (js "./manifest"))
                 (js "package-apex-limited.xml"), written)
    /\ document_types written = Some tys'
    /\ map typeName tys' = map typeName tys
    /\ ((Forall (fun type => is_apex type = false) tys /\ tys' = tys)
        \/ exists pre type post,
             tys = pre ++ type :: post
             /\ Forall (fun type => is_apex type = false) pre
             /\ is_apex type = true
             /\ tys' = pre ++ limit_members
                               (or_default (maxClasses params) 100%Z) type
                             :: post).
Proof.
  intros Hdir Hgen Hread Hdoc.
  unfold retrieveApexClasses. rewrite Hdir, Hgen, Hread.
  destruct (parse text) as [m | | rootName root] eqn:Hparse;
    try discriminate.
  set (max := or_default (maxClasses params) 100%Z).
  exists (limit_apex_classes rootName root max), (limit_first_apex max tys).
  split; [destruct (execSync (retrieve_command _)); reflexivity|].
  split; [apply limit_apex_classes_types; exact Hdoc|].
  destruct (limit_first_apex_spec max tys)
    as [[Hall Heq] | (pre & t & post & Hsplit & Hpre & Ht & Heq)].
  - rewrite Heq. split; [reflexivity | left; split; [exact Hall | reflexivity]].
  - split.
    + rewrite Heq, Hsplit, !map_app. simpl. rewrite limit_members_name.
      reflexivity.
    + right. exists pre, t, post. repeat split; assumption.
Qed.

(** X18. [retrieveApexClasses] writes the limited manifest before it runs
    the retrieve command: when that command fails the tool throws, and the
    limited manifest is left on disk. *)
Theorem retrieve_apex_failure_leaves_manifest
  (params : RetrieveApexClassesParams) (text rootName : JsString)
  (root : node) (m : JsString) :
  ensure_dir dirExists mkdirSync
             (or_default (apexOutputDir params) (js "./manifest")) = None ->
  execSync (apex_generate_command
              (or_default (apexOutputDir params) (js "./manifest"))
              (apexOrgAlias params)) = None ->
  readFile (join (or_default (apexOutputDir params) (js "./manifest"))
                 (js "package.xml")) = Some text ->
  parse text = ParsedRoot rootName root ->
  execSync (retrieve_command
              (join (or_default (apexOutputDir params) (js "./manifest"))
                    (js "package-apex-limited.xml"))) = Some m ->
  retrieveApexClasses dirExists mkdirSync execSync readFile parse join params
  = (Some (join (or_default (apexOutputDir params) (js "./manifest"))
                (js "package-apex-limited.xml"),
           limit_apex_classes rootName root
             (or_default (maxClasses params) 100%Z)),
     Threw (js "Failed to retrieve Apex classes: " ++ m)).
Proof.
  intros Hdir Hgen Hread Hparse Hretrieve.
  unfold retrieveApexClasses.
  rewrite Hdir, Hgen, Hread, Hparse, Hretrieve. reflexivity.
Qed.

(** X19. [retrieveApexClasses] does not validate the manifest it read: a
    parsed manifest without a [Package] root or without a [types]
    collection is written back as it is, and the retrieve command runs on
    it. *)
Theorem retrieve_apex_copies_untyped_manifest
  (params : RetrieveApexClassesParams) (text rootName : JsString)
  (root : node) :
  ensure_dir dirExists mkdirSync
             (or_default (apexOutputDir params) (js "./manifest")) = None ->
  execSync (apex_generate_command
              (or_default (apexOutputDir params) (js "./manifest"))
              (apexOrgAlias params)) = None ->
  readFile (join (or_default (apexOutputDir params) (js "./manifest"))
                 (js "package.xml")) = Some text ->
  parse text = ParsedRoot rootName root ->
  (forall tys, ~ has_types (parse text) tys) ->
  execSync (retrieve_command
              (join (or_default (apexOutputDir params) (js "./manifest"))
                    (js "package-apex-limited.xml"))) = None ->
  retrieveApexClasses dirExists mkdirSync execSync readFile parse join params
  = (Some (join (or_default (apexOutputDir params) (js "./manifest"))
                (js "package-apex-limited.xml"),
           ParsedRoot rootName root),
     Returned (join (or_default (apexOutputDir params) (js "./manifest"))
                    (js "package-apex-limited.xml"))).
Proof.
  intros Hdir Hgen Hread Hparse Hnone Hretrieve.
  apply no_types_no_document in Hnone. rewrite Hparse in Hnone.
  unfold retrieveApexClasses.
  rewrite Hdir, Hgen, Hread, Hparse, Hretrieve.
  rewrite (limit_apex_classes_untyped _ _ _ Hnone). reflexivity.
Qed.

(** ** generateManifest *)

(** X20. [generateManifest] limits the manifest it generated with the
    limit given or, by default, 1000: the manifest is rewritten exactly
    when an entry has more members than that, with every entry limited.
    Its message says so only for a limit below 1000; with the default the
    manifest is cut without a word. *)
Theorem generate_limits_without_notice
  (params : GenerateManifestParams) (text : JsString) (tys : list node) :
  ensure_dir dirExists mkdirSync
             (or_default (outputDir params) (js "./manifest")) = None ->
  execSync (generate_command
              (or_default (outputDir params) (js "./manifest"))
              (orgAlias params) (preFilter params)) = None ->
  readFile (join (or_default (outputDir params) (js "./manifest"))
                 (js "package.xml")) = Some text ->
  document_types (parse text) = Some tys ->
  exists report,
    generateManifest dirExists mkdirSync execSync readFile parse join params
    = Returned report
    /\ (limitedTo report = None
        <-> (1000 <= or_default (maxItems params) 1000)%Z)
    /\ (rewrittenWith report = None
        <-> existsb (exceeds (or_default (maxItems params) 1000%Z)) tys = false)
    /\ (forall rewritten,
          rewrittenWith report = Some rewritten ->
          document_types rewritten
          = Some (map (limit_members (or_default (maxItems params) 1000%Z))
                      tys)).
Proof.
  intros Hdir Hgen Hread Hdoc.
  set (max := or_default (maxItems params) 1000%Z).
  destruct (filterLargeManifest_returns readFile parse
              (join (or_default (outputDir params) (js "./manifest"))
                    (js "package.xml")) max Hread Hdoc) as [Hyes Hno].
  unfold generateManifest. rewrite Hdir, Hgen, Hread. fold max.
  destruct (existsb (exceeds max) tys) eqn:E.
  - destruct (Hyes eq_refl) as [rewritten [Hret Hdoc']]. rewrite Hret.
    eexists. split; [reflexivity|]. cbn [limitedTo rewrittenWith].
    split; [|split].
    + destruct (max <? 1000)%Z eqn:L.
      * apply Z.ltb_lt in L. split; [discriminate | lia].
      * apply Z.ltb_ge in L. split; [intros _; exact L | reflexivity].
    + split; discriminate.
    + intros p Hp. injection Hp as <-. exact Hdoc'.
  - rewrite (Hno eq_refl).
    eexists. split; [reflexivity|]. cbn [limitedTo rewrittenWith].
    split; [|split].
    + destruct (max <? 1000)%Z eqn:L.
      * apply Z.ltb_lt in L. split; [discriminate | lia].
      * apply Z.ltb_ge in L. split; [intros _; exact L | reflexivity].
    + split; reflexivity.
    + intros p Hp. discriminate Hp.
Qed.

End Environment.

Lemma retrieve_apex_limits_first_entry_only_witness :
  exists written tys',
    fst (retrieveApexClasses dir_always never_throws retrieve_fails read_any
           (parse_to (package [account1; apex5; apex5])) join_slash
           (mkRetrieveApexClassesParams (js "dev") (Some (js "manifest"))
              (Some 3%Z)))
    = Some (js "manifest/package-apex-limited.xml", written)
    /\ document_types written = Some tys'
    /\ map typeName tys' = map typeName [account1; apex5; apex5]
    /\ ((Forall (fun type => is_apex type = false) [account1; apex5; apex5]
         /\ tys' = [account1; apex5; apex5])
        \/ exists pre type post,
             [account1; apex5; apex5] = pre ++ type :: post
             /\ Forall (fun type => is_apex type = false) pre
             /\ is_apex type = true
             /\ tys' = pre ++ limit_members 3 type :: post).
Proof.
  apply (@retrieve_apex_limits_first_entry_only dir_always never_throws
           retrieve_fails read_any
           (parse_to (package [account1; apex5; apex5])) join_slash
           (mkRetrieveApexClassesParams (js "dev") (Some (js "manifest"))
              (Some 3%Z))
           (js "<Package/>") [account1; apex5; apex5]);
    reflexivity.
Defined.

Lemma retrieve_apex_failure_leaves_manifest_witness :
  retrieveApexClasses dir_always never_throws retrieve_fails read_any
    (parse_to (package [account1; apex5; apex5])) join_slash
    (mkRetrieveApexClassesParams (js "dev") (Some (js "manifest"))
              (Some 3%Z))
  = (Some (js "manifest/package-apex-limited.xml",
           package [account1; apex3; apex5]),
     Threw (js "Failed to retrieve Apex classes: Command failed")).
Proof.
  apply (@retrieve_apex_failure_leaves_manifest dir_always never_throws
           retrieve_fails read_any
           (parse_to (package [account1; apex5; apex5])) join_slash
           (mkRetrieveApexClassesParams (js "dev") (Some (js "manifest"))
              (Some 3%Z))
           (js "<Package/>") (js "Package")
           (Elem [(js "xmlns", metadata_ns)] None
                 [(js "types", [account1; apex5; apex5]);
                  (js "version", texts ["58.0"%string])])
           (js "Command failed"));
    reflexivity.
Defined.

Lemma retrieve_apex_copies_untyped_manifest_witness :
  retrieveApexClasses dir_always never_throws never_throws read_any
    (parse_to package_without_types) join_slash
    (mkRetrieveApexClassesParams (js "dev") (Some (js "manifest")) None)
  = (Some (js "manifest/package-apex-limited.xml", package_without_types),
     Returned (js "manifest/package-apex-limited.xml")).
Proof.
  apply (@retrieve_apex_copies_untyped_manifest dir_always never_throws
           never_throws read_any (parse_to package_without_types) join_slash
           (mkRetrieveApexClassesParams (js "dev") (Some (js "manifest")) None)
           (js "<Package/>") (js "Package")
           (Elem [(js "xmlns", metadata_ns)] None
                 [(js "version", texts ["58.0"%string])]));
    try reflexivity.
  intros tys H. apply document_types_has_types in H. discriminate H.
Defined.

Lemma generate_limits_without_notice_witness :
  exists report,
    generateManifest dir_always never_throws never_throws read_any
      (parse_to (package [big_entry "ApexClass" 1001])) join_slash
      (mkGenerateManifestParams (js "dev") (Some (js "manifest")) None None)
    = Returned report
    /\ limitedTo report = None
    /\ rewrittenWith report
       = Some (package [big_entry "ApexClass" 1000]).
Proof.
  destruct (@generate_limits_without_notice dir_always never_throws
              never_throws read_any
              (parse_to (package [big_entry "ApexClass" 1001])) join_slash
              (mkGenerateManifestParams (js "dev") (Some (js "manifest")) None None)
              (js "<Package/>") [big_entry "ApexClass" 1001]
              eq_refl eq_refl eq_refl eq_refl)
    as [report (Hret & Hnote & _ & _)].
  exists report. split; [exact Hret|]. split.
  - apply Hnote. simpl. lia.
  - vm_compute in Hret. injection Hret as <-. vm_compute. reflexivity.
Defined.

(** ** view_apex_class *)

Lemma adapter_resolves_parsed
  (exec : JsString -> ExecResult) (command stdout stderr : JsString)
  (payload : value) :
  exec command = mkExecResult None stdout stderr ->
  stdout <> [] ->
  JSON_parse stdout = Some payload ->
  executeSfCommand exec command = Resolved payload.
Proof.
  intros Hexec Hne Hparse. unfold executeSfCommand, classify.
  rewrite Hexec. cbn [cb_error cb_stdout cb_stderr].
  destruct stdout as [|c r]; [congruence|].
  cbn [nonempty negb]. rewrite andb_false_r, Hparse. reflexivity.
Qed.

Lemma adapter_resolves_plain
  (exec : JsString -> ExecResult) (command stdout stderr : JsString) :
  exec command = mkExecResult None stdout stderr ->
  stdout <> [] ->
  JSON_parse stdout = None ->
  executeSfCommand exec command = Resolved (message_object (trim stdout)).
Proof.
  intros Hexec Hne Hparse. unfold executeSfCommand, classify.
  rewrite Hexec. cbn [cb_error cb_stdout cb_stderr].
  destruct stdout as [|c r]; [congruence|].
  cbn [nonempty negb]. rewrite andb_false_r, Hparse. reflexivity.
Qed.

(** X21. When the query succeeds but prints text that is not JSON,
    [view_apex_class] answers with an error (the TypeError of reading
    [records] of [undefined]): the adapter wraps the text in an object that
    has no [result], so the tool reports neither the text nor
    [Class not found]. *)
Theorem view_plain_text_is_error
  (exec : JsString -> ExecResult) (targetOrg className stdout stderr : JsString) :
  exec (view_command targetOrg className) = mkExecResult None stdout stderr ->
  stdout <> [] ->
  JSON_parse stdout = None ->
  view_apex_class exec targetOrg className = ViewError className TypeError.
Proof.
  intros Hexec Hne Hparse. unfold view_apex_class.
  rewrite (adapter_resolves_plain exec _ Hexec Hne Hparse). reflexivity.
Qed.

Lemma view_plain_text_is_error_witness :
  view_apex_class (exec_prints (js "No results found")) (js "dev") (js "Foo")
  = ViewError (js "Foo") TypeError.
Proof.
  apply (@view_plain_text_is_error (exec_prints (js "No results found"))
           (js "dev") (js "Foo") (js "No results found") [] eq_refl).
  - discriminate.
  - reflexivity.
Defined.

(** X22. When the query prints JSON whose [result.records] is an array,
    [view_apex_class] shows the [Body] of the first record, provided it
    converts to a string, and looks at no other record; with no record, and
    also with a first record whose [Body] is the empty string, it answers
    [Class not found]; with a first [Body] that cannot be converted to a
    string it answers with an error. *)
Theorem view_shows_first_record
  (exec : JsString -> ExecResult) (targetOrg className stdout stderr : JsString)
  (payload inner : value) (records : list value) :
  exec (view_command targetOrg className) = mkExecResult None stdout stderr ->
  stdout <> [] ->
  JSON_parse stdout = Some payload ->
  get_member payload (js "result") = Some (Some inner) ->
  get_member inner (js "records") = Some (Some (VArr records)) ->
  (records = [] ->
     view_apex_class exec targetOrg className
     = ClassBody className (VStr (js "Class not found")))
  /\ (forall first rest body,
        records = first :: rest ->
        get_member first (js "Body") = Some (Some body) ->
        truthy body = true ->
        to_string_throws body = false ->
        view_apex_class exec targetOrg className = ClassBody className body)
  /\ (forall first rest,
        records = first :: rest ->
        get_member first (js "Body") = Some (Some (VStr [])) ->
        view_apex_class exec targetOrg className
        = ClassBody className (VStr (js "Class not found")))
  /\ (forall first rest body,
        records = first :: rest ->
        get_member first (js "Body") = Some (Some body) ->
        truthy body = true ->
        to_string_throws body = true ->
        view_apex_class exec targetOrg className
        = ViewError className TypeError).
Proof.
  intros Hexec Hne Hparse Hresult Hrecords. unfold view_apex_class.
  rewrite (adapter_resolves_parsed exec _ Hexec Hne Hparse).
  unfold class_body. cbn [get]. rewrite Hresult. cbn [get].
  rewrite Hrecords. cbn [first_of].
  split; [|split; [|split]].
  - intros ->. reflexivity.
  - intros first rest body -> Hbody Htruthy Hs. cbn [nth_error].
    unfold optional_Body.
    destruct first; try (rewrite Hbody, Htruthy, Hs; reflexivity).
    discriminate Hbody.
  - intros first rest -> Hbody. cbn [nth_error]. unfold optional_Body.
    destruct first; try (rewrite Hbody; reflexivity).
    discriminate Hbody.
  - intros first rest body -> Hbody Htruthy Hs. cbn [nth_error].
    unfold optional_Body.
    destruct first; try (rewrite Hbody, Htruthy, Hs; reflexivity).
    discriminate Hbody.
Qed.

Lemma view_shows_first_record_witness :
  view_apex_class
    (exec_prints
       (query_output (record_text "public class Foo {}" ++ [44%N]
                      ++ record_text "public class Bar {}")))
    (js "dev") (js "Foo")
  = ClassBody (js "Foo") (VStr (js "public class Foo {}")).
Proof.
  destruct (@view_shows_first_record
              (exec_prints
                 (query_output (record_text "public class Foo {}" ++ [44%N]
                                ++ record_text "public class Bar {}")))
              (js "dev") (js "Foo")
              (query_output (record_text "public class Foo {}" ++ [44%N]
                             ++ record_text "public class Bar {}"))
              []
              (VObj [(js "status", VNum false 0 0);
                     (js "result",
                      VObj [(js "records",
                             VArr [VObj [(js "Body",
                                          VStr (js "public class Foo {}"))];
                                   VObj [(js "Body",
                                          VStr (js "public class Bar {}"))]])])])
              (VObj [(js "records",
                      VArr [VObj [(js "Body", VStr (js "public class Foo {}"))];
                            VObj [(js "Body",
                                   VStr (js "public class Bar {}"))]])])
              [VObj [(js "Body", VStr (js "public class Foo {}"))];
               VObj [(js "Body", VStr (js "public class Bar {}"))]]
              eq_refl)
    as [_ [Hfirst _]].
  - discriminate.
  - reflexivity.
  - reflexivity.
  - reflexivity.
  - apply (Hfirst (VObj [(js "Body", VStr (js "public class Foo {}"))])
                  [VObj [(js "Body", VStr (js "public class Bar {}"))]]
                  (VStr (js "public class Foo {}")));
      reflexivity.
Defined.

(** A first record whose [Body] is an object with a member named
    [toString]: the answer is the error text. *)
Example view_unprintable_body :
  view_apex_class
    (exec_prints
       (query_output
          ([123%N] ++ member_text "Body"
                        ([123%N] ++ member_text "toString" (js "1") ++ [125%N])
           ++ [125%N])))
    (js "dev") (js "Foo")
  = ViewError (js "Foo") TypeError.
Proof. reflexivity. Qed.

End WorkflowFacts.
